(** * mombasaStays backend: the listings API of [server.js]

    A shallow embedding of the four route handlers of [server.js]
    (proximity search, single listing, listing images, admin creation),
    of the SQL statements they send through [pool.query], and of the
    two read routes as an earlier revision of the file has them.

    Layout: JavaScript values, the tables, the store interface, the SQL
    statements, the handlers, a small concrete store used for examples,
    and then the properties. *)

From Stdlib Require Import ZArith QArith Qabs Ascii String List.
From stdpp Require Import base option list sorting strings pretty.

Local Open Scope string_scope.
Local Open Scope Z_scope.

(** ** JavaScript values *)

Module JS.

(** What [req.query], [req.body] and [req.headers] can hold.  A number
    is given by its value; [0] and [-0] are both [Number 0]. *)
#[local] Unset Elimination Schemes.
Inductive value : Type :=
| Undefined
| Null
| Bool (b : bool)
| Number (q : Q)
| Str (s : string)
| Array (items : list value)
| Object (fields : list (string * value)).
#[local] Set Elimination Schemes.

(** ToBoolean: [undefined], [null], [false], [0] and the empty string
    are falsy, every other value (arrays and objects included) is
    truthy. *)
Definition truthy (v : value) : bool :=
  match v with
  | Undefined | Null => false
  | Bool b => b
  | Number q => negb (Qeq_bool q 0)
  | Str s => negb (String.eqb s "")
  | Array _ | Object _ => true
  end.

(** The logical not of JavaScript, [!v]. *)
Definition not (v : value) : bool := negb (truthy v).

(** A destructuring default, [{ x = d }]: used when the property is
    [undefined], and only then. *)
Definition or_default (d v : value) : value :=
  match v with
  | Undefined => d
  | _ => v
  end.

End JS.

(** ** SQL values *)

(** The outcome of converting a bound parameter to the type the
    statement needs it at. *)
Inductive cast (A : Type) : Type :=
| Value (a : A)
| SqlNull
| Invalid.
Arguments Value {A} a.
Arguments SqlNull {A}.
Arguments Invalid {A}.

(** The promise [pool.query] returns: resolved with the rows, or
    rejected. *)
Inductive outcome (A : Type) : Type :=
| Resolved (rows : A)
| Rejected.
Arguments Resolved {A} rows.
Arguments Rejected {A}.

(** ** PostGIS points *)

Record geometry : Type := Point { ST_X : Q; ST_Y : Q; ST_SRID : Z }.

Definition ST_MakePoint (x y : Q) : geometry :=
  {| ST_X := x; ST_Y := y; ST_SRID := 0 |}.

Definition ST_SetSRID (g : geometry) (srid : Z) : geometry :=
  {| ST_X := ST_X g; ST_Y := ST_Y g; ST_SRID := srid |}.

(** A geography value is a point in longitude/latitude degrees. *)
Inductive geography : Type := Geography (g : geometry).

(** [location::geometry] *)
Definition to_geometry (g : geography) : geometry :=
  match g with Geography p => p end.

(** Longitude within [-180, 180] and latitude within [-90, 90]. *)
Definition geodetic (g : geometry) : bool :=
  Qle_bool (-180) (ST_X g) && Qle_bool (ST_X g) 180 &&
  Qle_bool (-90) (ST_Y g) && Qle_bool (ST_Y g) 90.

(** ** Tables *)

(** The column types the schema declares, which [server.js] only uses
    through equality ([WHERE], [JOIN]) and order ([ORDER BY id]). *)
Class Schema : Type := {
  listing_id : Type;
  user_id : Type;
  image_id : Type;
  price : Type;
  listing_id_eq_dec :: EqDecision listing_id;
  user_id_eq_dec :: EqDecision user_id;
  image_id_leb : image_id -> image_id -> bool
}.

Section Tables.
Context `{Schema}.

(** [listings], alias [l] *)
Record listing : Type := {
  l_id : listing_id;
  l_host_id : user_id;
  l_title : string;
  l_description : option string;
  l_price_kes : price;
  l_location : geography;
  l_location_name : option string;
  l_is_active : option bool;
  l_is_featured : option bool
}.

(** [listing_images], alias [li] *)
Record listing_image : Type := {
  li_id : image_id;
  li_listing_id : listing_id;
  li_image_url : option string
}.

(** [users], alias [u] *)
Record user : Type := {
  u_id : user_id;
  u_name : option string;
  u_phone : option string;
  u_whatsapp : option string
}.

Record database : Type := {
  listings : list listing;
  listing_images : list listing_image;
  users : list user
}.

End Tables.

(** ** The store behind [pool] *)

(** What PostgreSQL, PostGIS and the schema supply and [server.js] relies
    on: the rendering of a JavaScript value as a text parameter, the
    input conversions of the column types, the defaults and constraints
    of [listings], and the geodesic measurements. *)
Class Engine `{Schema} : Type := {
  (** [val.toString()], array literals and [JSON.stringify] for the
      values that are neither strings nor booleans *)
  prepare_text : JS.value -> string;
  float8in : string -> option Q;
  listing_id_in : string -> option listing_id;
  user_id_in : string -> option user_id;
  price_in : string -> option price;
  (** the identity a new listing row is given *)
  new_listing_id : database -> listing_id;
  default_is_active : option bool;
  default_is_featured : option bool;
  (** the constraints [listings] declares, checked on insertion *)
  constraints_hold : database -> listing -> bool;
  (** what the geography cast does to a point out of the geodetic range *)
  force_geodetic : geometry -> geometry;
  ST_Distance : geography -> geography -> Q;
  ST_DWithin : geography -> geography -> Q -> bool
}.

(** [ST_DWithin] is the test that the distance is at most the threshold. *)
Class DWithinDistance `{Engine} : Prop :=
  ST_DWithin_Distance :
    forall (a b : geography) (r : Q),
      ST_DWithin a b r = true <-> (ST_Distance a b <= r)%Q.

(** Image identities are totally preordered by [image_id_leb]. *)
Class ImageIdOrder `{Schema} : Prop := {
  image_id_leb_total :
    forall a b : image_id, image_id_leb a b = true \/ image_id_leb b a = true;
  image_id_leb_trans :
    forall a b c : image_id,
      image_id_leb a b = true -> image_id_leb b c = true ->
      image_id_leb a c = true
}.

(** The statements of [server.js], by the route that sends them, and the
    two statements of the earlier revision whose text is another: its
    proximity statement has no [images] subquery, its single-listing
    statement has none either and names the coordinates the other way
    round.  The [INSERT] is the same text in both. *)
Inductive statement : Type :=
| SelectNearby
| SelectListing
| SelectImages
| InsertListing
| EarlierSelectNearby
| EarlierSelectListing.

Section Queries.
Context `{Engine}.

(** *** Bound parameters *)

(** node-postgres sends every value as text, [null] and [undefined] as
    NULL. *)
Definition prepareValue (v : JS.value) : option string :=
  match v with
  | JS.Undefined | JS.Null => None
  | JS.Str s => Some s
  | JS.Bool b => Some (if b then "true" else "false")
  | JS.Number _ | JS.Array _ | JS.Object _ => Some (prepare_text v)
  end.

Definition bind {A : Type} (input : string -> option A) (v : JS.value)
  : cast A :=
  match prepareValue v with
  | None => SqlNull
  | Some s =>
      match input s with
      | Some a => Value a
      | None => Invalid
      end
  end.

(** A parameter read at type [float8].  A number is sent as the
    shortest decimal text that reads back as the same number. *)
Definition bind_float8 (v : JS.value) : cast Q :=
  match v with
  | JS.Number q => Value q
  | _ => bind float8in v
  end.

(** [(...)::geography]: a point within the geodetic range is kept as
    it is, any other point is coerced into the range. *)
Definition to_geography (g : geometry) : geography :=
  if geodetic g then Geography g else Geography (force_geodetic g).

(** [ST_SetSRID(ST_MakePoint($x, $y), 4326)::geography] *)
Definition make_geography (x y : Q) : geography :=
  to_geography (ST_SetSRID (ST_MakePoint x y) 4326).

(** *** Image aggregation *)

(** [json_build_object('id', li.id, 'image_url', li.image_url)] *)
Record image_object : Type := {
  io_id : image_id;
  io_image_url : option string
}.

Definition json_build_object (li : listing_image) : image_object :=
  {| io_id := li_id li; io_image_url := li_image_url li |}.

(** [json_agg] over no row at all is NULL, not the empty array. *)
Definition json_agg {A : Type} (rows : list A) : option (list A) :=
  match rows with
  | [] => None
  | _ :: _ => Some rows
  end.

Definition COALESCE {A : Type} (v : option A) (d : A) : option A :=
  match v with
  | Some a => Some a
  | None => Some d
  end.

(** [(SELECT json_agg(json_build_object(...)) FROM listing_images li
      WHERE li.listing_id = l.id)] *)
Definition images_subquery (db : database) (l : listing)
  : option (list image_object) :=
  json_agg
    (json_build_object <$>
       filter (fun li => li_listing_id li = l_id l) (listing_images db)).

(** *** Proximity search *)

Record nearby_row : Type := {
  nr_id : listing_id;
  nr_host_id : user_id;
  nr_title : string;
  nr_description : option string;
  nr_price_kes : price;
  nr_location_name : option string;
  nr_is_featured : option bool;
  nr_longitude : Q;
  nr_latitude : Q;
  nr_distance : Q;
  nr_images : option (list image_object)
}.

Definition nearby_select (db : database) (center : geography) (l : listing)
  : nearby_row :=
  {| nr_id := l_id l;
     nr_host_id := l_host_id l;
     nr_title := l_title l;
     nr_description := l_description l;
     nr_price_kes := l_price_kes l;
     nr_location_name := l_location_name l;
     nr_is_featured := l_is_featured l;
     nr_longitude := ST_X (to_geometry (l_location l));
     nr_latitude := ST_Y (to_geometry (l_location l));
     nr_distance := ST_Distance (l_location l) center;
     nr_images := images_subquery db l |}.

(** [WHERE l.is_active = true AND ST_DWithin(l.location, center, $3)]:
    a NULL flag is not [true]. *)
Definition nearby_where (center : geography) (radius : Q) (l : listing)
  : bool :=
  bool_decide (l_is_active l = Some true) &&
  ST_DWithin (l_location l) center radius.

(** The place of a flag under [DESC]: NULL first, then [true], then
    [false]. *)
Definition desc_rank (b : option bool) : Z :=
  match b with
  | None => 0
  | Some true => 1
  | Some false => 2
  end.

(** [ORDER BY l.is_featured DESC, distance ASC] *)
Definition nearby_order_by (r1 r2 : nearby_row) : bool :=
  (desc_rank (nr_is_featured r1) <? desc_rank (nr_is_featured r2)) ||
  ((desc_rank (nr_is_featured r1) =? desc_rank (nr_is_featured r2)) &&
   Qle_bool (nr_distance r1) (nr_distance r2)).

Definition nearby_le (r1 r2 : nearby_row) : Prop :=
  nearby_order_by r1 r2 = true.

#[global] Instance nearby_le_dec : RelDecision nearby_le.
Proof. intros r1 r2. unfold nearby_le. apply _. Defined.

(** The statement of [GET /api/listings/nearby] on parameters
    [$1, $2, $3]. *)
Definition select_nearby (v1 v2 v3 : JS.value) (db : database)
  : outcome (list nearby_row * database) :=
  match bind_float8 v1, bind_float8 v2, bind_float8 v3 with
  | Invalid, _, _ | _, Invalid, _ | _, _, Invalid => Rejected
  | Value x, Value y, Value radius =>
      let center := make_geography x y in
      Resolved
        (merge_sort nearby_le
           (nearby_select db center <$>
              filter (fun l => nearby_where center radius l) (listings db)),
         db)
  | _, _, _ => Resolved ([], db)
  end.

(** *** Single listing *)

(** [l.*] followed by the computed columns; a computed column named as
    a column of [l.*] would take its place in the row object. *)
Record listing_row : Type := {
  lr_listing : listing;
  lr_latitude : Q;
  lr_longitude : Q;
  lr_host_name : option string;
  lr_host_phone : option string;
  lr_host_whatsapp : option string;
  lr_images : option (list image_object)
}.

Definition listing_select (db : database) (l : listing) (u : user)
  : listing_row :=
  {| lr_listing := l;
     lr_latitude := ST_X (to_geometry (l_location l));
     lr_longitude := ST_Y (to_geometry (l_location l));
     lr_host_name := u_name u;
     lr_host_phone := u_phone u;
     lr_host_whatsapp := u_whatsapp u;
     lr_images := COALESCE (images_subquery db l) [] |}.

(** [FROM listings l JOIN users u ON l.host_id = u.id WHERE l.id = $1] *)
Definition listing_join (db : database) (i : listing_id)
  : list (listing * user) :=
  l ← filter (fun l => l_id l = i) (listings db);
  u ← filter (fun u => l_host_id l = u_id u) (users db);
  [(l, u)].

(** The statement of [GET /api/listings/:id] on parameter [$1]. *)
Definition select_listing (v1 : JS.value) (db : database)
  : outcome (list listing_row * database) :=
  match bind listing_id_in v1 with
  | Invalid => Rejected
  | SqlNull => Resolved ([], db)
  | Value i =>
      Resolved
        ((fun lu => listing_select db lu.1 lu.2) <$> listing_join db i, db)
  end.

(** *** Listing images *)

(** [SELECT id, image_url] *)
Definition images_select (li : listing_image) : image_object :=
  {| io_id := li_id li; io_image_url := li_image_url li |}.

(** [ORDER BY id] *)
Definition image_le (r1 r2 : image_object) : Prop :=
  image_id_leb (io_id r1) (io_id r2) = true.

#[global] Instance image_le_dec : RelDecision image_le.
Proof. intros r1 r2. unfold image_le. apply _. Defined.

(** The statement of [GET /api/listings/:id/images] on parameter [$1]. *)
Definition select_images (v1 : JS.value) (db : database)
  : outcome (list image_object * database) :=
  match bind listing_id_in v1 with
  | Invalid => Rejected
  | SqlNull => Resolved ([], db)
  | Value i =>
      Resolved
        (merge_sort image_le
           (images_select <$>
              filter (fun li => li_listing_id li = i) (listing_images db)),
         db)
  end.

(** *** Listing creation *)

(** The statement of [POST /api/admin/listings] on parameters
    [$1 .. $7]; [RETURNING *] gives the stored row back.  The columns
    the statement does not name take their defaults.  A NULL bound to
    [host_id], [title], [price_kes] or to a coordinate has no place in
    [listing]; the handler never binds one. *)
Definition insert_listing (v1 v2 v3 v4 v5 v6 v7 : JS.value) (db : database)
  : outcome (list listing * database) :=
  match bind user_id_in v1, prepareValue v2, bind price_in v4,
        bind_float8 v5, bind_float8 v6 with
  | Value host, Some title, Value price_kes, Value x, Value y =>
      let row :=
        {| l_id := new_listing_id db;
           l_host_id := host;
           l_title := title;
           l_description := prepareValue v3;
           l_price_kes := price_kes;
           l_location := make_geography x y;
           l_location_name := prepareValue v7;
           l_is_active := default_is_active;
           l_is_featured := default_is_featured |} in
      if constraints_hold db row then
        Resolved
          ([row],
           {| listings := (listings db ++ [row])%list;
              listing_images := listing_images db;
              users := users db |})
      else Rejected
  | _, _, _, _, _ => Rejected
  end.

(** ** The connection pool *)

(** The store, whether it can be reached, and the statements sent so
    far with their parameters. *)
Record pool : Type := {
  store : database;
  reachable : bool;
  sent : list (statement * list JS.value)
}.

(** [await pool.query(query, values)] *)
Definition pool_query {A : Type} (p : pool) (query : statement)
    (values : list JS.value) (run : database -> outcome (A * database))
  : outcome A * pool :=
  let log := (sent p ++ [(query, values)])%list in
  if reachable p then
    match run (store p) with
    | Resolved (rows, db) =>
        (Resolved rows, {| store := db; reachable := true; sent := log |})
    | Rejected =>
        (Rejected, {| store := store p; reachable := true; sent := log |})
    end
  else
    (Rejected, {| store := store p; reachable := false; sent := log |}).

(** ** Responses *)

Inductive json : Type :=
| Error (error : string)
| NearbyRows (rows : list nearby_row)
| ListingRow (row : listing_row)
| ImageRows (rows : list image_object)
| InsertedRow (row : option listing).

Record response : Type := { status : Z; body : json }.

(** [res.json(b)] *)
Definition res_json (b : json) : response := {| status := 200; body := b |}.

(** [res.status(code).json(b)] *)
Definition res_status_json (code : Z) (b : json) : response :=
  {| status := code; body := b |}.

Definition internal_server_error : response :=
  res_status_json 500 (Error "Internal server error").

(** ** Route handlers *)

(** [req.query] of the proximity search *)
Record query : Type := { lat : JS.value; lng : JS.value; radius : JS.value }.

(** [app.get('/api/listings/nearby', ...)], lines 46-98 *)
Definition get_listings_nearby (p : pool) (q : query) : response * pool :=
  let radius' := JS.or_default (JS.Number 5000) (radius q) in
  if JS.not (lat q) || JS.not (lng q) then
    (res_status_json 400 (Error "lat and lng are required"), p)
  else
    match pool_query p SelectNearby [lng q; lat q; radius']
            (select_nearby (lng q) (lat q) radius') with
    | (Resolved rows, p') => (res_json (NearbyRows rows), p')
    | (Rejected, p') => (internal_server_error, p')
    end.

(** [app.get('/api/listings/:id', ...)], lines 104-144, on
    [req.params.id] *)
Definition get_listing (p : pool) (id : string) : response * pool :=
  match pool_query p SelectListing [JS.Str id] (select_listing (JS.Str id)) with
  | (Resolved [], p') => (res_status_json 404 (Error "Listing not found"), p')
  | (Resolved (row :: _), p') => (res_json (ListingRow row), p')
  | (Rejected, p') => (internal_server_error, p')
  end.

(** [app.get('/api/listings/:id/images', ...)], lines 152-168, on
    [req.params.id] *)
Definition get_listing_images (p : pool) (id : string) : response * pool :=
  match pool_query p SelectImages [JS.Str id] (select_images (JS.Str id)) with
  | (Resolved rows, p') => (res_json (ImageRows rows), p')
  | (Rejected, p') => (internal_server_error, p')
  end.

(** [req.body] of the admin creation; a property the body does not
    have reads as [undefined]. *)
Record listing_body : Type := {
  host_id : JS.value;
  title : JS.value;
  description : JS.value;
  price_kes : JS.value;
  latitude : JS.value;
  longitude : JS.value;
  location_name : JS.value
}.

(** [app.post('/api/admin/listings', ...)], lines 174-232, on
    [process.env.ADMIN_KEY], [req.headers['x-admin-key']] and [req.body] *)
Definition post_admin_listings (ADMIN_KEY : option string) (p : pool)
    (key : option string) (b : listing_body) : response * pool :=
  if negb (bool_decide (key = ADMIN_KEY)) then
    (res_status_json 401 (Error "Unauthorized"), p)
  else if JS.not (host_id b) || JS.not (title b) || JS.not (price_kes b) ||
          JS.not (latitude b) || JS.not (longitude b) then
    (res_status_json 400 (Error "Missing required fields"), p)
  else
    let values :=
      [host_id b; title b; description b; price_kes b;
       longitude b; latitude b; location_name b] in
    match pool_query p InsertListing values
            (insert_listing (host_id b) (title b) (description b)
               (price_kes b) (longitude b) (latitude b) (location_name b)) with
    | (Resolved rows, p') => (res_status_json 201 (InsertedRow (head rows)), p')
    | (Rejected, p') => (internal_server_error, p')
    end.

End Queries.

(** ** The earlier revision of the read routes

    The second source file is an earlier revision of [server.js]: no
    image columns, no image route, the same creation route, and a
    single-listing statement that names [ST_X] longitude and [ST_Y]
    latitude. *)

Module Part000.
Section Queries.
Context `{Engine}.

Record nearby_row : Type := {
  nr_id : listing_id;
  nr_host_id : user_id;
  nr_title : string;
  nr_description : option string;
  nr_price_kes : price;
  nr_location_name : option string;
  nr_is_featured : option bool;
  nr_longitude : Q;
  nr_latitude : Q;
  nr_distance : Q
}.

Definition nearby_select (center : geography) (l : listing) : nearby_row :=
  {| nr_id := l_id l;
     nr_host_id := l_host_id l;
     nr_title := l_title l;
     nr_description := l_description l;
     nr_price_kes := l_price_kes l;
     nr_location_name := l_location_name l;
     nr_is_featured := l_is_featured l;
     nr_longitude := ST_X (to_geometry (l_location l));
     nr_latitude := ST_Y (to_geometry (l_location l));
     nr_distance := ST_Distance (l_location l) center |}.

(** [ORDER BY is_featured DESC, distance ASC] *)
Definition nearby_order_by (r1 r2 : nearby_row) : bool :=
  (desc_rank (nr_is_featured r1) <? desc_rank (nr_is_featured r2)) ||
  ((desc_rank (nr_is_featured r1) =? desc_rank (nr_is_featured r2)) &&
   Qle_bool (nr_distance r1) (nr_distance r2)).

Definition nearby_le (r1 r2 : nearby_row) : Prop :=
  nearby_order_by r1 r2 = true.

#[global] Instance nearby_le_dec : RelDecision nearby_le.
Proof. intros r1 r2. unfold nearby_le. apply _. Defined.

Definition select_nearby (v1 v2 v3 : JS.value) (db : database)
  : outcome (list nearby_row * database) :=
  match bind_float8 v1, bind_float8 v2, bind_float8 v3 with
  | Invalid, _, _ | _, Invalid, _ | _, _, Invalid => Rejected
  | Value x, Value y, Value radius =>
      let center := make_geography x y in
      Resolved
        (merge_sort nearby_le
           (nearby_select center <$>
              filter (fun l => nearby_where center radius l) (listings db)),
         db)
  | _, _, _ => Resolved ([], db)
  end.

Record listing_row : Type := {
  lr_listing : listing;
  lr_longitude : Q;
  lr_latitude : Q;
  lr_host_name : option string;
  lr_host_phone : option string;
  lr_host_whatsapp : option string
}.

Definition listing_select (l : listing) (u : user) : listing_row :=
  {| lr_listing := l;
     lr_longitude := ST_X (to_geometry (l_location l));
     lr_latitude := ST_Y (to_geometry (l_location l));
     lr_host_name := u_name u;
     lr_host_phone := u_phone u;
     lr_host_whatsapp := u_whatsapp u |}.

Definition select_listing (v1 : JS.value) (db : database)
  : outcome (list listing_row * database) :=
  match bind listing_id_in v1 with
  | Invalid => Rejected
  | SqlNull => Resolved ([], db)
  | Value i =>
      Resolved ((fun lu => listing_select lu.1 lu.2) <$> listing_join db i, db)
  end.

Inductive json : Type :=
| Error (error : string)
| NearbyRows (rows : list nearby_row)
| ListingRow (row : listing_row).

Record response : Type := { status : Z; body : json }.

Definition res_json (b : json) : response := {| status := 200; body := b |}.

Definition res_status_json (code : Z) (b : json) : response :=
  {| status := code; body := b |}.

Definition internal_server_error : response :=
  res_status_json 500 (Error "Internal server error").

Definition get_listings_nearby (p : pool) (q : query) : response * pool :=
  let radius' := JS.or_default (JS.Number 5000) (radius q) in
  if JS.not (lat q) || JS.not (lng q) then
    (res_status_json 400 (Error "lat and lng are required"), p)
  else
    match pool_query p EarlierSelectNearby [lng q; lat q; radius']
            (select_nearby (lng q) (lat q) radius') with
    | (Resolved rows, p') => (res_json (NearbyRows rows), p')
    | (Rejected, p') => (internal_server_error, p')
    end.

Definition get_listing (p : pool) (id : string) : response * pool :=
  match pool_query p EarlierSelectListing [JS.Str id]
          (select_listing (JS.Str id)) with
  | (Resolved [], p') => (res_status_json 404 (Error "Listing not found"), p')
  | (Resolved (row :: _), p') => (res_json (ListingRow row), p')
  | (Rejected, p') => (internal_server_error, p')
  end.

End Queries.
End Part000.

(** A row of [server.js] without its [images] column is a row of the
    earlier revision. *)
Definition without_images `{Engine} (r : nearby_row) : Part000.nearby_row :=
  {| Part000.nr_id := nr_id r;
     Part000.nr_host_id := nr_host_id r;
     Part000.nr_title := nr_title r;
     Part000.nr_description := nr_description r;
     Part000.nr_price_kes := nr_price_kes r;
     Part000.nr_location_name := nr_location_name r;
     Part000.nr_is_featured := nr_is_featured r;
     Part000.nr_longitude := nr_longitude r;
     Part000.nr_latitude := nr_latitude r;
     Part000.nr_distance := nr_distance r |}.

(** ** A concrete store

    Integer identities and prices, decimal input, a flat-earth distance
    of 100000 meters to the degree, and a few rows around Nairobi.  The
    examples and the instances of the properties below run on it. *)

Module Demo.

Definition digit (c : ascii) : option Z :=
  let n := Z.of_N (Ascii.N_of_ascii c) in
  if (48 <=? n) && (n <=? 57) then Some (n - 48) else None.

(** Digits with at most one point: [num / den] so far, whether the
    point was met, whether a digit was met. *)
Fixpoint unsigned_decimal (s : string) (num : Z) (den : positive)
    (point any : bool) : option Q :=
  match s with
  | EmptyString => if any then Some (num # den) else None
  | String c rest =>
      match digit c with
      | Some d =>
          unsigned_decimal rest (10 * num + d)
            (if point then (10 * den)%positive else den) point true
      | None =>
          if Ascii.eqb c "."%char && negb point
          then unsigned_decimal rest num den true any
          else None
      end
  end.

Definition decimal (s : string) : option Q :=
  match s with
  | String c rest =>
      if Ascii.eqb c "-"%char
      then Qopp <$> unsigned_decimal rest 0 1 false false
      else unsigned_decimal s 0 1 false false
  | EmptyString => None
  end.

Definition integer (s : string) : option Z :=
  match decimal s with
  | Some q => if (Zpos (Qden q) =? 1) then Some (Qnum q) else None
  | None => None
  end.

Definition number_text (q : Q) : string :=
  let r := Qred q in
  if (Zpos (Qden r) =? 1) then pretty (Qnum r)
  else pretty (Qnum r) +:+ "/" +:+ pretty (Zpos (Qden r)).

#[local] Instance schema : Schema := {|
  listing_id := Z;
  user_id := Z;
  image_id := Z;
  price := Z;
  image_id_leb := Z.leb
|}.

Definition clamp (lo hi x : Q) : Q :=
  if Qle_bool x lo then lo else if Qle_bool hi x then hi else x.

Definition flat_distance (a b : geography) : Q :=
  Qred (100000 *
        (Qabs (ST_X (to_geometry a) - ST_X (to_geometry b)) +
         Qabs (ST_Y (to_geometry a) - ST_Y (to_geometry b)))).

Definition next_id (db : database) : Z :=
  1 + foldr Z.max 0 (l_id <$> listings db).

(** A primary key on [listings.id] and a foreign key from
    [listings.host_id] to [users.id]. *)
Definition keys_hold (db : database) (row : listing) : bool :=
  bool_decide (l_id row ∉ l_id <$> listings db) &&
  bool_decide (l_host_id row ∈ u_id <$> users db).

#[local] Instance engine : Engine := {|
  prepare_text v :=
    match v with
    | JS.Number q => number_text q
    | _ => "[object Object]"
    end;
  float8in := decimal;
  listing_id_in := integer;
  user_id_in := integer;
  price_in := integer;
  new_listing_id := next_id;
  default_is_active := Some true;
  default_is_featured := Some false;
  constraints_hold := keys_hold;
  force_geodetic g :=
    {| ST_X := clamp (-180) 180 (ST_X g);
       ST_Y := clamp (-90) 90 (ST_Y g);
       ST_SRID := ST_SRID g |};
  ST_Distance := flat_distance;
  ST_DWithin a b r := Qle_bool (flat_distance a b) r
|}.

Definition at_lonlat (x y : Q) : geography := make_geography x y.

(** 500 meters north of the centre, featured, two images *)
Definition diani : listing :=
  {| l_id := 1; l_host_id := 10; l_title := "Diani cottage";
     l_description := Some "Two rooms"; l_price_kes := 4500;
     l_location := at_lonlat 36.8219 (-1.2871);
     l_location_name := Some "Kilimani";
     l_is_active := Some true; l_is_featured := Some true |}.

(** 1800 meters east of the centre, not featured, no image *)
Definition nyali : listing :=
  {| l_id := 2; l_host_id := 10; l_title := "Nyali flat";
     l_description := None; l_price_kes := 3000;
     l_location := at_lonlat 36.8399 (-1.2921);
     l_location_name := None;
     l_is_active := Some true; l_is_featured := Some false |}.

(** at the centre, not active *)
Definition bamburi : listing :=
  {| l_id := 3; l_host_id := 11; l_title := "Bamburi studio";
     l_description := None; l_price_kes := 2000;
     l_location := at_lonlat 36.8219 (-1.2921);
     l_location_name := None;
     l_is_active := Some false; l_is_featured := Some true |}.

(** active, in Mombasa, far from the centre *)
Definition likoni : listing :=
  {| l_id := 4; l_host_id := 11; l_title := "Likoni house";
     l_description := None; l_price_kes := 6000;
     l_location := at_lonlat 39.6682 (-4.0435);
     l_location_name := Some "Mombasa";
     l_is_active := Some true; l_is_featured := Some true |}.

Definition seeded : database :=
  {| listings := [nyali; bamburi; likoni; diani];
     listing_images :=
       [ {| li_id := 8; li_listing_id := 1; li_image_url := Some "b.jpg" |};
         {| li_id := 9; li_listing_id := 4; li_image_url := Some "c.jpg" |};
         {| li_id := 7; li_listing_id := 1; li_image_url := Some "a.jpg" |} ];
     users :=
       [ {| u_id := 10; u_name := Some "Amina"; u_phone := Some "0700";
            u_whatsapp := None |};
         {| u_id := 11; u_name := Some "Baraka"; u_phone := None;
            u_whatsapp := None |} ] |}.

Definition connected : pool :=
  {| store := seeded; reachable := true; sent := [] |}.

Definition nairobi : query :=
  {| lat := JS.Str "-1.2921"; lng := JS.Str "36.8219";
     radius := JS.Str "2000" |}.

(** [{ host_id: 10, title: "Tudor loft", price_kes: 5200,
       latitude: 1.0, longitude: 2.0 }] *)
Definition tudor : listing_body :=
  {| host_id := JS.Number 10; title := JS.Str "Tudor loft";
     description := JS.Undefined; price_kes := JS.Number 5200;
     latitude := JS.Number 1; longitude := JS.Number 2;
     location_name := JS.Undefined |}.

(** The host of the first two listings. *)
Definition amina : user :=
  {| u_id := 10; u_name := Some "Amina"; u_phone := Some "0700";
     u_whatsapp := None |}.

(** The same tables behind a store that cannot be reached. *)
Definition disconnected : pool :=
  {| store := seeded; reachable := false; sent := [] |}.

(** A listing whose host is no row of [users]. *)
Definition kilifi : listing :=
  {| l_id := 6; l_host_id := 12; l_title := "Kilifi banda";
     l_description := None; l_price_kes := 1500;
     l_location := at_lonlat 39.85 (-3.63);
     l_location_name := None;
     l_is_active := Some true; l_is_featured := Some false |}.

Definition with_orphan : pool :=
  {| store :=
       {| listings := [kilifi; nyali];
          listing_images := [];
          users := users seeded |};
     reachable := true; sent := [] |}.

(** [?lat=-1.2921&lng=36.8219], no radius *)
Definition nairobi_default : query :=
  {| lat := JS.Str "-1.2921"; lng := JS.Str "36.8219";
     radius := JS.Undefined |}.

(** [?lat=1&lng=2], no radius *)
Definition around_tudor : query :=
  {| lat := JS.Str "1"; lng := JS.Str "2"; radius := JS.Undefined |}.

(** [?lat=north&lng=36.8219] *)
Definition misspelt : query :=
  {| lat := JS.Str "north"; lng := JS.Str "36.8219";
     radius := JS.Undefined |}.

(** [{ ..., host_id: 99 }]: a host that is no row of [users] *)
Definition unhosted : listing_body :=
  {| host_id := JS.Number 99; title := JS.Str "Tudor loft";
     description := JS.Undefined; price_kes := JS.Number 5200;
     latitude := JS.Number 1; longitude := JS.Number 2;
     location_name := JS.Undefined |}.

(** [{ ..., latitude: "north" }] *)
Definition unplaced : listing_body :=
  {| host_id := JS.Number 10; title := JS.Str "Tudor loft";
     description := JS.Undefined; price_kes := JS.Number 5200;
     latitude := JS.Str "north"; longitude := JS.Number 2;
     location_name := JS.Str "Tudor" |}.

End Demo.

(** * Properties *)

Section Properties.
Context `{Engine}.

(** ** The pool *)

(** Every statement sent is appended to the log, whatever its
    outcome. *)
Lemma pool_query_sent {A : Type} (p : pool) (q : statement)
    (vs : list JS.value) (run : database -> outcome (A * database)) :
  sent (pool_query p q vs run).2 = (sent p ++ [(q, vs)])%list.
Proof.
  unfold pool_query.
  destruct (reachable p); [destruct (run (store p)) as [[rows db]|]|];
    reflexivity.
Qed.

(** So a handler that hands the pool back as it was has sent nothing. *)
Lemma pool_query_neq {A : Type} (p : pool) (q : statement)
    (vs : list JS.value) (run : database -> outcome (A * database)) :
  (pool_query p q vs run).2 <> p.
Proof.
  intros Heq. pose proof (pool_query_sent p q vs run) as Hsent.
  rewrite Heq in Hsent.
  apply (f_equal length) in Hsent. rewrite length_app in Hsent.
  simpl in Hsent. lia.
Qed.

Lemma pool_query_resolved {A : Type} (p : pool) (q : statement)
    (vs : list JS.value) (run : database -> outcome (A * database))
    (rows : A) (db : database) :
  reachable p = true ->
  run (store p) = Resolved (rows, db) ->
  pool_query p q vs run =
    (Resolved rows,
     {| store := db; reachable := true;
        sent := (sent p ++ [(q, vs)])%list |}).
Proof. intros Hup Hrun. unfold pool_query. rewrite Hup, Hrun. reflexivity. Qed.

Lemma pool_query_rejected {A : Type} (p : pool) (q : statement)
    (vs : list JS.value) (run : database -> outcome (A * database)) :
  reachable p = false \/ run (store p) = Rejected ->
  (pool_query p q vs run).1 = Rejected.
Proof.
  intros [Hdown|Hrun]; unfold pool_query.
  - rewrite Hdown. reflexivity.
  - rewrite Hrun. destruct (reachable p); reflexivity.
Qed.

(** A [SELECT] leaves the tables as they are. *)
Lemma select_nearby_store (v1 v2 v3 : JS.value) (db db' : database)
    (rows : list nearby_row) :
  select_nearby v1 v2 v3 db = Resolved (rows, db') -> db' = db.
Proof.
  unfold select_nearby.
  destruct (bind_float8 v1), (bind_float8 v2), (bind_float8 v3);
    intros Hq; congruence.
Qed.

(** ** Truthiness *)

Lemma not_undefined : JS.not JS.Undefined = true.
Proof. reflexivity. Qed.

Lemma not_zero (q : Q) : (q == 0)%Q -> JS.not (JS.Number q) = true.
Proof.
  intros Hq. unfold JS.not, JS.truthy.
  apply Qeq_bool_iff in Hq. rewrite Hq. reflexivity.
Qed.

Lemma not_empty_string : JS.not (JS.Str "") = true.
Proof. reflexivity. Qed.

(** A truthy value is never bound as NULL. *)
Lemma truthy_prepareValue (v : JS.value) :
  JS.truthy v = true -> is_Some (prepareValue v).
Proof. destruct v; simpl; intros Hv; try discriminate; eauto. Qed.

(** ** Admin creation: the two gates *)

Lemma post_admin_listings_unauthorized (ADMIN_KEY key : option string)
    (p : pool) (b : listing_body) :
  key <> ADMIN_KEY ->
  post_admin_listings ADMIN_KEY p key b =
    (res_status_json 401 (Error "Unauthorized"), p).
Proof.
  intros Hkey. unfold post_admin_listings.
  rewrite bool_decide_eq_false_2 by exact Hkey. reflexivity.
Qed.

Lemma post_admin_listings_falsy (ADMIN_KEY : option string) (p : pool)
    (b : listing_body) :
  JS.not (host_id b) = true \/ JS.not (title b) = true \/
  JS.not (price_kes b) = true \/ JS.not (latitude b) = true \/
  JS.not (longitude b) = true ->
  post_admin_listings ADMIN_KEY p ADMIN_KEY b =
    (res_status_json 400 (Error "Missing required fields"), p).
Proof.
  intros Hfalsy. unfold post_admin_listings.
  rewrite bool_decide_eq_true_2 by reflexivity. simpl.
  assert (JS.not (host_id b) || JS.not (title b) || JS.not (price_kes b) ||
          JS.not (latitude b) || JS.not (longitude b) = true) as ->.
  { repeat rewrite orb_true_iff. tauto. }
  reflexivity.
Qed.

(** An empty key environment lets a request without the header
    through to the field check. *)
Lemma post_admin_listings_no_secret (p : pool) (b : listing_body) :
  JS.not (host_id b) = true ->
  post_admin_listings None p None b =
    (res_status_json 400 (Error "Missing required fields"), p).
Proof. intros Hb. apply post_admin_listings_falsy. tauto. Qed.

(** ** Ordering *)

(** In a strongly sorted list an earlier entry is related to every
    later one. *)
Lemma StronglySorted_lookup_lt {A : Type} (R : relation A) (l : list A)
    (i j : nat) (a b : A) :
  StronglySorted R l ->
  l !! i = Some a -> l !! j = Some b -> (i < j)%nat -> R a b.
Proof.
  intros Hsorted. revert i j.
  induction Hsorted as [|x l Hsorted IH Hall]; intros i j Hi Hj Hlt.
  - discriminate.
  - destruct j as [|j]; [lia|].
    destruct i as [|i]; simpl in *.
    + injection Hi as ->.
      rewrite Forall_forall in Hall. apply Hall.
      eapply list_elem_of_lookup_2. exact Hj.
    + apply (IH i j); [assumption..|lia].
Qed.

Lemma Qle_bool_total (a b : Q) : Qle_bool a b = true \/ Qle_bool b a = true.
Proof.
  rewrite !Qle_bool_iff.
  destruct (Qlt_le_dec a b) as [Hlt|Hle]; [left; apply Qlt_le_weak|right];
    assumption.
Qed.

Lemma Qle_bool_trans (a b c : Q) :
  Qle_bool a b = true -> Qle_bool b c = true -> Qle_bool a c = true.
Proof. rewrite !Qle_bool_iff. apply Qle_trans. Qed.

Ltac by_flags r1 r2 :=
  destruct (nr_is_featured r1) as [[|]|], (nr_is_featured r2) as [[|]|];
  simpl; auto using Qle_bool_total.

#[local] Instance nearby_le_total : Total nearby_le.
Proof.
  intros r1 r2. unfold nearby_le, nearby_order_by. by_flags r1 r2.
Qed.

#[local] Instance nearby_le_trans : Transitive nearby_le.
Proof.
  intros r1 r2 r3. unfold nearby_le, nearby_order_by.
  destruct (nr_is_featured r1) as [[|]|], (nr_is_featured r2) as [[|]|],
           (nr_is_featured r3) as [[|]|];
    simpl; try discriminate; auto; apply Qle_bool_trans.
Qed.

(** What [ORDER BY l.is_featured DESC, distance ASC] says of two rows
    in result order. *)
Lemma nearby_le_featured (r1 r2 : nearby_row) :
  nearby_le r1 r2 ->
  (nr_is_featured r1 = Some false -> nr_is_featured r2 <> Some true) /\
  (nr_is_featured r1 = nr_is_featured r2 ->
   (nr_distance r1 <= nr_distance r2)%Q).
Proof.
  unfold nearby_le, nearby_order_by. intros Hle. split.
  - intros H1 H2. rewrite H1, H2 in Hle. discriminate.
  - intros Heq. rewrite Heq in Hle.
    rewrite Z.ltb_irrefl, Z.eqb_refl in Hle. simpl in Hle.
    apply Qle_bool_iff. exact Hle.
Qed.

(** ** Proximity search *)

Lemma nearby_where_iff `{!DWithinDistance} (center : geography) (r : Q)
    (l : listing) :
  nearby_where center r l = true <->
  l_is_active l = Some true /\ (ST_Distance (l_location l) center <= r)%Q.
Proof.
  unfold nearby_where.
  rewrite andb_true_iff, bool_decide_eq_true, ST_DWithin_Distance.
  reflexivity.
Qed.

(** The rows the statement answers with, when its three parameters read
    as numbers. *)
Lemma select_nearby_rows (v1 v2 v3 : JS.value) (db : database) (x y r : Q) :
  bind_float8 v1 = Value x -> bind_float8 v2 = Value y ->
  bind_float8 v3 = Value r ->
  select_nearby v1 v2 v3 db =
    Resolved
      (merge_sort nearby_le
         (nearby_select db (make_geography x y) <$>
            filter (fun l => nearby_where (make_geography x y) r l)
              (listings db)),
       db).
Proof. intros H1 H2 H3. unfold select_nearby. rewrite H1, H2, H3. reflexivity. Qed.

(** In any case the rows are in the order of [nearby_le]. *)
Lemma select_nearby_sorted (v1 v2 v3 : JS.value) (db db' : database)
    (rows : list nearby_row) :
  select_nearby v1 v2 v3 db = Resolved (rows, db') ->
  StronglySorted nearby_le rows.
Proof.
  unfold select_nearby.
  destruct (bind_float8 v1), (bind_float8 v2), (bind_float8 v3);
    intros Hq; try discriminate; injection Hq as <- _;
    first [apply StronglySorted_merge_sort; apply _ | constructor].
Qed.

(** A response that carries rows carries the rows of the statement. *)
Lemma get_listings_nearby_rows (p p' : pool) (q : query) (resp : response)
    (rows : list nearby_row) :
  get_listings_nearby p q = (resp, p') ->
  body resp = NearbyRows rows ->
  select_nearby (lng q) (lat q) (JS.or_default (JS.Number 5000) (radius q))
    (store p) = Resolved (rows, store p).
Proof.
  unfold get_listings_nearby, pool_query.
  destruct (JS.not (lat q) || JS.not (lng q)).
  { intros [= <- _]. discriminate. }
  destruct (reachable p).
  - destruct (select_nearby _ _ _ (store p)) as [[rows' db']|] eqn:Hq.
    + intros [= <- _] [= ->].
      apply select_nearby_store in Hq as Hdb. congruence.
    + intros [= <- _]. discriminate.
  - intros [= <- _]. discriminate.
Qed.

Lemma get_listings_nearby_ok (p : pool) (q : query) (x y r : Q) :
  reachable p = true ->
  JS.truthy (lat q) = true -> JS.truthy (lng q) = true ->
  bind_float8 (lng q) = Value x -> bind_float8 (lat q) = Value y ->
  bind_float8 (JS.or_default (JS.Number 5000) (radius q)) = Value r ->
  get_listings_nearby p q =
    (res_json
       (NearbyRows
          (merge_sort nearby_le
             (nearby_select (store p) (make_geography x y) <$>
                filter (fun l => nearby_where (make_geography x y) r l)
                  (listings (store p))))),
     {| store := store p; reachable := true;
        sent :=
          (sent p ++
           [(SelectNearby,
             [lng q; lat q; JS.or_default (JS.Number 5000) (radius q)])])%list
     |}).
Proof.
  intros Hup Hlat Hlng Hx Hy Hr. unfold get_listings_nearby, JS.not.
  rewrite Hlat, Hlng. simpl.
  rewrite (pool_query_resolved _ _ _ _ _ (store p) Hup
             (select_nearby_rows _ _ _ _ _ _ _ Hx Hy Hr)).
  reflexivity.
Qed.

Lemma elem_of_nearby_rows (db : database) (center : geography) (r : Q)
    (row : nearby_row) :
  row ∈ merge_sort nearby_le
          (nearby_select db center <$>
             filter (fun l => nearby_where center r l) (listings db)) <->
  exists l, l ∈ listings db /\ nearby_where center r l = true /\
            row = nearby_select db center l.
Proof.
  rewrite merge_sort_Permutation, list_elem_of_fmap.
  setoid_rewrite list_elem_of_filter.
  split; intros (l & H1 & H2); exists l.
  - destruct H2 as [Hw Hl]. apply Is_true_true in Hw. auto.
  - destruct H2 as [Hw ->]. rewrite Is_true_true. auto.
Qed.

(** ** Filters and joins *)

Lemma filter_none {A : Type} (P : A -> Prop) `{forall x, Decision (P x)}
    (l : list A) :
  (forall x, x ∈ l -> ~ P x) -> filter P l = [].
Proof.
  intros Hnone. destruct (filter P l) as [|x k] eqn:Hf; [reflexivity|].
  assert (x ∈ filter P l) as Hx by (rewrite Hf; constructor).
  apply list_elem_of_filter in Hx as [HP Hl].
  destruct (Hnone x Hl HP).
Qed.

Lemma elem_of_listing_join (db : database) (i : listing_id) (l : listing)
    (u : user) :
  (l, u) ∈ listing_join db i <->
  l ∈ listings db /\ l_id l = i /\ u ∈ users db /\ l_host_id l = u_id u.
Proof.
  unfold listing_join. rewrite list_elem_of_bind. split.
  - intros (l' & Hu & Hl).
    apply list_elem_of_filter in Hl as [Hid Hl].
    apply list_elem_of_bind in Hu as (u' & Hlu & Hu).
    apply list_elem_of_filter in Hu as [Hhost Hu].
    apply list_elem_of_singleton in Hlu as [= -> ->]. auto.
  - intros (Hl & Hid & Hu & Hhost). exists l. split.
    + apply list_elem_of_bind. exists u. split.
      * apply list_elem_of_singleton. reflexivity.
      * apply list_elem_of_filter. auto.
    + apply list_elem_of_filter. auto.
Qed.

Lemma listing_join_unknown (db : database) (i : listing_id) :
  (forall l, l ∈ listings db -> l_id l <> i) -> listing_join db i = [].
Proof.
  intros Hnone. unfold listing_join.
  rewrite filter_none by exact Hnone. reflexivity.
Qed.

(** A listing with a host in [users] is in the join on its own
    identity. *)
Lemma listing_join_known (db : database) (l : listing) (u : user) :
  l ∈ listings db -> u ∈ users db -> l_host_id l = u_id u ->
  exists l' u' rest,
    listing_join db (l_id l) = (l', u') :: rest /\ l_id l' = l_id l /\
    l' ∈ listings db.
Proof.
  intros Hl Hu Hhost.
  assert ((l, u) ∈ listing_join db (l_id l)) as Hin
    by (apply elem_of_listing_join; auto).
  destruct (listing_join db (l_id l)) as [|[l' u'] rest] eqn:Hjoin.
  - apply elem_of_nil in Hin. destruct Hin.
  - exists l', u', rest. split; [reflexivity|].
    assert ((l', u') ∈ listing_join db (l_id l)) as Hin'
      by (rewrite Hjoin; constructor).
    apply elem_of_listing_join in Hin'. tauto.
Qed.

(** ** Single listing *)

Lemma bind_str {A : Type} (input : string -> option A) (s : string) (a : A) :
  input s = Some a -> bind input (JS.Str s) = Value a.
Proof. intros Hin. unfold bind. simpl. rewrite Hin. reflexivity. Qed.

Lemma get_listing_not_found (p : pool) (id : string) (i : listing_id) :
  reachable p = true ->
  listing_id_in id = Some i ->
  listing_join (store p) i = [] ->
  get_listing p id =
    (res_status_json 404 (Error "Listing not found"),
     {| store := store p; reachable := true;
        sent := (sent p ++ [(SelectListing, [JS.Str id])])%list |}).
Proof.
  intros Hup Hid Hjoin. unfold get_listing.
  rewrite (pool_query_resolved _ _ _ _ [] (store p) Hup); [reflexivity|].
  unfold select_listing. rewrite (bind_str _ _ _ Hid), Hjoin. reflexivity.
Qed.

Lemma get_listing_found (p : pool) (id : string) (i : listing_id)
    (l : listing) (u : user) (rest : list (listing * user)) :
  reachable p = true ->
  listing_id_in id = Some i ->
  listing_join (store p) i = (l, u) :: rest ->
  get_listing p id =
    (res_json (ListingRow (listing_select (store p) l u)),
     {| store := store p; reachable := true;
        sent := (sent p ++ [(SelectListing, [JS.Str id])])%list |}).
Proof.
  intros Hup Hid Hjoin. unfold get_listing.
  rewrite (pool_query_resolved _ _ _ _
             ((fun lu => listing_select (store p) lu.1 lu.2) <$>
                ((l, u) :: rest)) (store p) Hup); [reflexivity|].
  unfold select_listing. rewrite (bind_str _ _ _ Hid), Hjoin. reflexivity.
Qed.

(** An identifier the column type does not read is a server error. *)
Lemma get_listing_malformed (p : pool) (id : string) :
  listing_id_in id = None ->
  (get_listing p id).1 = internal_server_error.
Proof.
  intros Hid. unfold get_listing.
  pose proof (pool_query_rejected p SelectListing [JS.Str id]
                (select_listing (JS.Str id))) as Hrej.
  destruct (pool_query _ _ _ _) as [[rows|] p'].
  - simpl in Hrej. discriminate Hrej. right.
    unfold select_listing, bind. simpl. rewrite Hid. reflexivity.
  - reflexivity.
Qed.

Lemma Part000_get_listing_found (p : pool) (id : string) (i : listing_id)
    (l : listing) (u : user) (rest : list (listing * user)) :
  reachable p = true ->
  listing_id_in id = Some i ->
  listing_join (store p) i = (l, u) :: rest ->
  Part000.get_listing p id =
    (Part000.res_json (Part000.ListingRow (Part000.listing_select l u)),
     {| store := store p; reachable := true;
        sent := (sent p ++ [(EarlierSelectListing, [JS.Str id])])%list |}).
Proof.
  intros Hup Hid Hjoin. unfold Part000.get_listing.
  rewrite (pool_query_resolved _ _ _ _
             ((fun lu => Part000.listing_select lu.1 lu.2) <$>
                ((l, u) :: rest)) (store p) Hup); [reflexivity|].
  unfold Part000.select_listing.
  rewrite (bind_str _ _ _ Hid), Hjoin. reflexivity.
Qed.

(** ** Images *)

Lemma images_subquery_none (db : database) (l : listing) :
  (forall li, li ∈ listing_images db -> li_listing_id li <> l_id l) ->
  images_subquery db l = None.
Proof.
  intros Hnone. unfold images_subquery.
  rewrite filter_none by exact Hnone. reflexivity.
Qed.

Lemma images_subquery_id (db : database) (l l' : listing) :
  l_id l' = l_id l -> images_subquery db l' = images_subquery db l.
Proof. intros Hid. unfold images_subquery. rewrite Hid. reflexivity. Qed.

#[local] Instance image_le_total `{!ImageIdOrder} : Total image_le.
Proof. intros r1 r2. apply image_id_leb_total. Qed.

#[local] Instance image_le_trans `{!ImageIdOrder} : Transitive image_le.
Proof. intros r1 r2 r3. apply image_id_leb_trans. Qed.

Lemma get_listing_images_ok (p : pool) (id : string) (i : listing_id) :
  reachable p = true ->
  listing_id_in id = Some i ->
  get_listing_images p id =
    (res_json
       (ImageRows
          (merge_sort image_le
             (images_select <$>
                filter (fun li => li_listing_id li = i)
                  (listing_images (store p))))),
     {| store := store p; reachable := true;
        sent := (sent p ++ [(SelectImages, [JS.Str id])])%list |}).
Proof.
  intros Hup Hid. unfold get_listing_images.
  rewrite (pool_query_resolved _ _ _ _
             (merge_sort image_le
                (images_select <$>
                   filter (fun li => li_listing_id li = i)
                     (listing_images (store p)))) (store p) Hup);
    [reflexivity|].
  unfold select_images. rewrite (bind_str _ _ _ Hid). reflexivity.
Qed.

(** ** Creation *)

Lemma make_geography_geodetic (x y : Q) :
  geodetic (ST_SetSRID (ST_MakePoint x y) 4326) = true ->
  ST_X (to_geometry (make_geography x y)) = x /\
  ST_Y (to_geometry (make_geography x y)) = y.
Proof.
  intros Hin. unfold make_geography, to_geography. rewrite Hin.
  split; reflexivity.
Qed.

(** What a 201 response says of the request and of the pool. *)
Lemma post_admin_listings_created (ADMIN_KEY key : option string)
    (p p' : pool) (b : listing_body) (resp : response) :
  post_admin_listings ADMIN_KEY p key b = (resp, p') ->
  status resp = 201 ->
  exists (row : listing) (x y : Q),
    body resp = InsertedRow (Some row) /\
    bind_float8 (longitude b) = Value x /\
    bind_float8 (latitude b) = Value y /\
    l_location row = make_geography x y /\
    l_id row = new_listing_id (store p) /\
    listings (store p') = (listings (store p) ++ [row])%list /\
    listing_images (store p') = listing_images (store p) /\
    users (store p') = users (store p) /\
    reachable p' = true.
Proof.
  unfold post_admin_listings, pool_query.
  destruct (negb (bool_decide (key = ADMIN_KEY))).
  { intros [= <- _]. discriminate. }
  destruct (_ || _).
  { intros [= <- _]. discriminate. }
  destruct (reachable p).
  2: { intros [= <- _]. discriminate. }
  unfold insert_listing.
  destruct (bind user_id_in (host_id b)) as [host| |];
    try (intros [= <- _]; discriminate).
  destruct (prepareValue (title b)) as [t|];
    try (intros [= <- _]; discriminate).
  destruct (bind price_in (price_kes b)) as [pr| |];
    try (intros [= <- _]; discriminate).
  destruct (bind_float8 (longitude b)) as [x| |];
    try (intros [= <- _]; discriminate).
  destruct (bind_float8 (latitude b)) as [y| |];
    try (intros [= <- _]; discriminate).
  destruct (constraints_hold _ _);
    try (intros [= <- _]; discriminate).
  intros [= <- <-] _. eexists _, x, y. simpl. repeat split; reflexivity.
Qed.

(** After a creation the join on the new identity starts with the new
    row, as soon as the identity is new and the host is a user. *)
Lemma listing_join_created (db db' : database) (row : listing) :
  listings db' = (listings db ++ [row])%list ->
  users db' = users db ->
  (forall l, l ∈ listings db -> l_id l <> l_id row) ->
  (exists u, u ∈ users db /\ l_host_id row = u_id u) ->
  exists u rest, listing_join db' (l_id row) = (row, u) :: rest.
Proof.
  intros Hls Hus Hnew (u & Hu & Hhost).
  destruct (listing_join_known db' row u) as (l' & u' & rest & Hjoin & Hid & Hl').
  - rewrite Hls. apply elem_of_app. right. constructor.
  - rewrite Hus. exact Hu.
  - exact Hhost.
  - exists u', rest. rewrite Hjoin. f_equal. f_equal.
    rewrite Hls in Hl'. apply elem_of_app in Hl' as [Hold|Hrow].
    + destruct (Hnew l' Hold Hid).
    + apply list_elem_of_singleton in Hrow. exact Hrow.
Qed.

(** [server.js]: the fetch of a created listing answers with the two
    coordinates of the request under each other's name. *)
Lemma create_then_get_listing (ADMIN_KEY key : option string) (p p' : pool)
    (b : listing_body) (resp : response) (row : listing) (lat' lng' : Q)
    (id : string) :
  post_admin_listings ADMIN_KEY p key b = (resp, p') ->
  status resp = 201 -> body resp = InsertedRow (Some row) ->
  bind_float8 (latitude b) = Value lat' ->
  bind_float8 (longitude b) = Value lng' ->
  geodetic (ST_SetSRID (ST_MakePoint lng' lat') 4326) = true ->
  (forall l, l ∈ listings (store p) -> l_id l <> l_id row) ->
  (exists u, u ∈ users (store p) /\ l_host_id row = u_id u) ->
  listing_id_in id = Some (l_id row) ->
  exists (fetched : listing_row) (p'' : pool),
    get_listing p' id = (res_json (ListingRow fetched), p'') /\
    lr_listing fetched = row /\
    lr_latitude fetched = lng' /\ lr_longitude fetched = lat'.
Proof.
  intros Hpost Hstatus Hbody Hlat Hlng Hin Hnew Hhost Hid.
  destruct (post_admin_listings_created _ _ _ _ _ _ Hpost Hstatus)
    as (row' & x & y & Hbody' & Hx & Hy & Hloc & _ & Hls & _ & Hus & Hup).
  assert (row' = row) as -> by congruence.
  assert (x = lng') as -> by congruence.
  assert (y = lat') as -> by congruence.
  destruct (listing_join_created (store p) (store p') row Hls Hus Hnew Hhost)
    as (u & rest & Hjoin).
  eexists _, _. split; [exact (get_listing_found _ _ _ _ _ _ Hup Hid Hjoin)|].
  simpl. rewrite Hloc.
  destruct (make_geography_geodetic _ _ Hin) as [HX HY]. auto.
Qed.

(** The earlier revision: the fetch of a created listing answers with
    the coordinates of the request under their own names. *)
Lemma Part000_create_then_get_listing (ADMIN_KEY key : option string)
    (p p' : pool) (b : listing_body) (resp : response) (row : listing)
    (lat' lng' : Q) (id : string) :
  post_admin_listings ADMIN_KEY p key b = (resp, p') ->
  status resp = 201 -> body resp = InsertedRow (Some row) ->
  bind_float8 (latitude b) = Value lat' ->
  bind_float8 (longitude b) = Value lng' ->
  geodetic (ST_SetSRID (ST_MakePoint lng' lat') 4326) = true ->
  (forall l, l ∈ listings (store p) -> l_id l <> l_id row) ->
  (exists u, u ∈ users (store p) /\ l_host_id row = u_id u) ->
  listing_id_in id = Some (l_id row) ->
  exists (fetched : Part000.listing_row) (p'' : pool),
    Part000.get_listing p' id =
      (Part000.res_json (Part000.ListingRow fetched), p'') /\
    Part000.lr_listing fetched = row /\
    Part000.lr_latitude fetched = lat' /\
    Part000.lr_longitude fetched = lng'.
Proof.
  intros Hpost Hstatus Hbody Hlat Hlng Hin Hnew Hhost Hid.
  destruct (post_admin_listings_created _ _ _ _ _ _ Hpost Hstatus)
    as (row' & x & y & Hbody' & Hx & Hy & Hloc & _ & Hls & _ & Hus & Hup).
  assert (row' = row) as -> by congruence.
  assert (x = lng') as -> by congruence.
  assert (y = lat') as -> by congruence.
  destruct (listing_join_created (store p) (store p') row Hls Hus Hnew Hhost)
    as (u & rest & Hjoin).
  eexists _, _.
  split; [exact (Part000_get_listing_found _ _ _ _ _ _ Hup Hid Hjoin)|].
  simpl. rewrite Hloc.
  destruct (make_geography_geodetic _ _ Hin) as [HX HY]. auto.
Qed.

(** ** The earlier revision of the proximity search *)

(** Sorting commutes with a map that preserves the order. *)
Lemma list_merge_fmap {A B : Type} (R1 : relation A) (R2 : relation B)
    `{!RelDecision R1, !RelDecision R2} (f : A -> B) :
  (forall x y, R1 x y <-> R2 (f x) (f y)) ->
  forall l1 l2,
    list_merge R2 (f <$> l1) (f <$> l2) = f <$> list_merge R1 l1 l2.
Proof.
  intros Hf l1. induction l1 as [|x1 l1 IH1]; intros l2.
  - rewrite fmap_nil, !list_merge_nil_l. reflexivity.
  - induction l2 as [|x2 l2 IH2].
    + rewrite fmap_nil, !list_merge_nil_r. reflexivity.
    + rewrite !fmap_cons, !list_merge_cons.
      destruct (decide (R1 x1 x2)) as [Hr|Hr], (decide (R2 (f x1) (f x2)))
        as [Hr'|Hr']; try (apply Hf in Hr; contradiction);
        try (apply Hf in Hr'; contradiction).
      * rewrite fmap_cons. f_equal. rewrite <- fmap_cons. apply IH1.
      * rewrite fmap_cons. f_equal. rewrite <- fmap_cons. exact IH2.
Qed.

Lemma merge_list_to_stack_fmap {A B : Type} (R1 : relation A)
    (R2 : relation B) `{!RelDecision R1, !RelDecision R2} (f : A -> B) :
  (forall x y, R1 x y <-> R2 (f x) (f y)) ->
  forall (st : list (option (list A))) (l : list A),
    merge_list_to_stack R2
      (fmap (M:=list) (fmap (M:=option) (fmap (M:=list) f)) st) (f <$> l) =
    fmap (M:=list) (fmap (M:=option) (fmap (M:=list) f))
      (merge_list_to_stack R1 st l).
Proof.
  intros Hf st. induction st as [|[l'|] st IH]; intros l; csimpl.
  - reflexivity.
  - rewrite (list_merge_fmap R1 R2 f Hf), IH. reflexivity.
  - reflexivity.
Qed.

Lemma merge_stack_fmap {A B : Type} (R1 : relation A) (R2 : relation B)
    `{!RelDecision R1, !RelDecision R2} (f : A -> B) :
  (forall x y, R1 x y <-> R2 (f x) (f y)) ->
  forall st : list (option (list A)),
    merge_stack R2 (fmap (M:=list) (fmap (M:=option) (fmap (M:=list) f)) st) =
    f <$> merge_stack R1 st.
Proof.
  intros Hf st. induction st as [|[l'|] st IH]; csimpl.
  - reflexivity.
  - rewrite IH. apply (list_merge_fmap R1 R2 f Hf).
  - exact IH.
Qed.

Lemma merge_sort_fmap {A B : Type} (R1 : relation A) (R2 : relation B)
    `{!RelDecision R1, !RelDecision R2} (f : A -> B) (l : list A) :
  (forall x y, R1 x y <-> R2 (f x) (f y)) ->
  merge_sort R2 (f <$> l) = f <$> merge_sort R1 l.
Proof.
  intros Hf. unfold merge_sort.
  change (@nil (option (list B)))
    with (fmap (M:=list) (fmap (M:=option) (fmap (M:=list) f))
            (@nil (option (list A)))).
  generalize (@nil (option (list A))) as st.
  induction l as [|x l IH]; intros st; csimpl.
  - apply (merge_stack_fmap R1 R2 f Hf).
  - rewrite <- IH. f_equal.
    apply (merge_list_to_stack_fmap R1 R2 f Hf st [x]).
Qed.

(** The statement of the earlier revision answers with the rows of the
    statement of [server.js], less their [images] column. *)
Lemma Part000_select_nearby (v1 v2 v3 : JS.value) (db : database) :
  Part000.select_nearby v1 v2 v3 db =
    match select_nearby v1 v2 v3 db with
    | Resolved (rows, db') => Resolved (without_images <$> rows, db')
    | Rejected => Rejected
    end.
Proof.
  unfold Part000.select_nearby, select_nearby.
  destruct (bind_float8 v1), (bind_float8 v2), (bind_float8 v3);
    try reflexivity.
  f_equal. f_equal.
  rewrite <- (merge_sort_fmap nearby_le Part000.nearby_le without_images)
    by reflexivity.
  rewrite <- list_fmap_compose. reflexivity.
Qed.

(** * The claims *)

(** C1. A proximity search whose [lat] and [lng] are present and read
    as numbers, with a radius [r] that is 5000 when the request gives
    none and the number the given [radius] reads as otherwise, answers
    200 with rows such that every row is the row of a stored listing
    with [is_active = true], carries its identity and its distance from
    the query centre, and that distance is at most [r]; and such that
    every active listing within [r] of the centre has its row among
    them. *)
Theorem nearby_active_within_radius `{!DWithinDistance} (p : pool)
    (q : query) (x y r : Q) :
  reachable p = true ->
  JS.truthy (lat q) = true -> JS.truthy (lng q) = true ->
  bind_float8 (lng q) = Value x -> bind_float8 (lat q) = Value y ->
  (radius q = JS.Undefined /\ r = 5000%Q) \/
  (radius q <> JS.Undefined /\ bind_float8 (radius q) = Value r) ->
  exists (rows : list nearby_row) (p' : pool),
    get_listings_nearby p q = (res_json (NearbyRows rows), p') /\
    (forall row, row ∈ rows ->
       exists l, l ∈ listings (store p) /\
         row = nearby_select (store p) (make_geography x y) l /\
         nr_id row = l_id l /\
         l_is_active l = Some true /\
         nr_distance row = ST_Distance (l_location l) (make_geography x y) /\
         (nr_distance row <= r)%Q) /\
    (forall l, l ∈ listings (store p) ->
       l_is_active l = Some true ->
       (ST_Distance (l_location l) (make_geography x y) <= r)%Q ->
       exists row, row ∈ rows /\
         row = nearby_select (store p) (make_geography x y) l /\
         nr_id row = l_id l /\
         nr_distance row = ST_Distance (l_location l) (make_geography x y)).
Proof.
  intros Hup Hlat Hlng Hx Hy Hradius.
  assert (bind_float8 (JS.or_default (JS.Number 5000) (radius q)) = Value r)
    as Hr.
  { destruct Hradius as [[-> ->]|[Hgiven Hr]]; [reflexivity|].
    destruct (radius q); try exact Hr. destruct (Hgiven eq_refl). }
  eexists _, _.
  split; [exact (get_listings_nearby_ok p q x y r Hup Hlat Hlng Hx Hy Hr)|].
  split.
  - intros row Hrow.
    apply elem_of_nearby_rows in Hrow as (l & Hl & Hw & ->).
    apply nearby_where_iff in Hw as [Hactive Hdist].
    exists l. simpl. auto 7.
  - intros l Hl Hactive Hdist.
    exists (nearby_select (store p) (make_geography x y) l).
    split; [|auto].
    apply elem_of_nearby_rows. exists l.
    rewrite nearby_where_iff. auto.
Qed.

(** C2. In the rows of any proximity-search response, no row with
    [is_featured = false] comes before a row with [is_featured = true],
    and of two rows with the same flag the earlier one has the smaller
    or equal distance. *)
Theorem nearby_featured_then_distance (p p' : pool) (q : query)
    (resp : response) (rows : list nearby_row) (i j : nat)
    (ri rj : nearby_row) :
  get_listings_nearby p q = (resp, p') ->
  body resp = NearbyRows rows ->
  rows !! i = Some ri -> rows !! j = Some rj -> (i < j)%nat ->
  (nr_is_featured ri = Some false -> nr_is_featured rj <> Some true) /\
  (nr_is_featured ri = nr_is_featured rj ->
   (nr_distance ri <= nr_distance rj)%Q).
Proof.
  intros Hget Hbody Hi Hj Hlt.
  apply nearby_le_featured.
  apply (StronglySorted_lookup_lt nearby_le rows i j); try assumption.
  eapply select_nearby_sorted.
  exact (get_listings_nearby_rows _ _ _ _ _ Hget Hbody).
Qed.

(** C4. With a secret configured, a creation request whose
    [x-admin-key] header is absent or is not the secret is answered
    401 whatever its body holds, and the pool is handed back as it
    was: no statement was sent, no row inserted. *)
Theorem admin_key_checked_first (secret : string) (p : pool)
    (key : option string) (b : listing_body) :
  key = None \/ key <> Some secret ->
  post_admin_listings (Some secret) p key b =
    (res_status_json 401 (Error "Unauthorized"), p).
Proof.
  intros Hkey. apply post_admin_listings_unauthorized.
  destruct Hkey as [->|Hkey]; [discriminate|exact Hkey].
Qed.

(** C5. A proximity search without [lat] or without [lng] is answered
    400 and the pool is handed back as it was: no statement was
    sent. *)
Theorem nearby_requires_lat_lng (p : pool) (q : query) :
  lat q = JS.Undefined \/ lng q = JS.Undefined ->
  get_listings_nearby p q =
    (res_status_json 400 (Error "lat and lng are required"), p).
Proof.
  intros Hmissing. unfold get_listings_nearby.
  assert (JS.not (lat q) || JS.not (lng q) = true) as ->; [|reflexivity].
  apply orb_true_iff.
  destruct Hmissing as [->| ->]; [left|right]; reflexivity.
Qed.

(** C6, amended. The fetch of an identifier that the identity column
    reads and that is the identity of no stored listing is answered 404
    with the error [Listing not found], the store being reachable.  (An
    identifier the column does not read is answered 500.) *)
Theorem get_listing_unknown_404 (p : pool) (id : string) (i : listing_id) :
  reachable p = true ->
  listing_id_in id = Some i ->
  (forall l, l ∈ listings (store p) -> l_id l <> i) ->
  exists p' : pool,
    get_listing p id =
      (res_status_json 404 (Error "Listing not found"), p') /\
    store p' = store p.
Proof.
  intros Hup Hid Hnone. eexists. split.
  - apply (get_listing_not_found p id i Hup Hid).
    apply listing_join_unknown. exact Hnone.
  - reflexivity.
Qed.

(** C7. The image route answers 200 with rows that are, each once, the
    [id] and the [image_url] of the stored images whose [listing_id] is
    the identifier, in ascending [id]; for a listing without images the
    rows are the empty array. *)
Theorem get_listing_images_sorted `{!ImageIdOrder} (p : pool) (id : string)
    (i : listing_id) :
  reachable p = true ->
  listing_id_in id = Some i ->
  exists (rows : list image_object) (p' : pool),
    get_listing_images p id = (res_json (ImageRows rows), p') /\
    rows ≡ₚ (fun li => {| io_id := li_id li;
                          io_image_url := li_image_url li |}) <$>
              filter (fun li => li_listing_id li = i)
                (listing_images (store p)) /\
    StronglySorted
      (fun r1 r2 => image_id_leb (io_id r1) (io_id r2) = true) rows /\
    ((forall li, li ∈ listing_images (store p) -> li_listing_id li <> i) ->
     rows = []).
Proof.
  intros Hup Hid. eexists _, _.
  split; [exact (get_listing_images_ok p id i Hup Hid)|].
  split; [apply merge_sort_Permutation|].
  split; [apply (StronglySorted_merge_sort image_le)|].
  intros Hnone. rewrite filter_none by exact Hnone. reflexivity.
Qed.

(** C8. With the right key, a creation request whose body lacks
    [host_id], [title], [price_kes], [latitude] or [longitude] is
    answered 400 and the pool is handed back as it was: no statement
    was sent, the store is unchanged. *)
Theorem admin_missing_field_400 (ADMIN_KEY : option string) (p : pool)
    (b : listing_body) :
  host_id b = JS.Undefined \/ title b = JS.Undefined \/
  price_kes b = JS.Undefined \/ latitude b = JS.Undefined \/
  longitude b = JS.Undefined ->
  post_admin_listings ADMIN_KEY p ADMIN_KEY b =
    (res_status_json 400 (Error "Missing required fields"), p).
Proof.
  intros Hmissing. apply post_admin_listings_falsy.
  destruct Hmissing as [Hm|[Hm|[Hm|[Hm|Hm]]]]; rewrite Hm;
    auto using not_undefined.
Qed.

(** C9. With the right key, a creation request whose [price_kes],
    [latitude] or [longitude] is the number 0, or whose [title] or
    [host_id] is the empty string, is answered 400 and nothing is
    sent to the store: the check is on truthiness. *)
Theorem admin_falsy_field_400 (ADMIN_KEY : option string) (p : pool)
    (b : listing_body) :
  price_kes b = JS.Number 0 \/ latitude b = JS.Number 0 \/
  longitude b = JS.Number 0 \/ title b = JS.Str "" \/
  host_id b = JS.Str "" ->
  post_admin_listings ADMIN_KEY p ADMIN_KEY b =
    (res_status_json 400 (Error "Missing required fields"), p).
Proof.
  intros Hfalsy. apply post_admin_listings_falsy.
  destruct Hfalsy as [Hf|[Hf|[Hf|[Hf|Hf]]]]; rewrite Hf; simpl; auto 6.
Qed.

(** C10. For a stored listing without images: its fetch (given a host
    in [users]) answers 200 with [images] the empty array, and a
    proximity search that selects it answers with a row for it, every
    row for it having [images] NULL. *)
Theorem empty_images_array_or_null (p : pool) (l : listing) :
  l ∈ listings (store p) ->
  (forall li, li ∈ listing_images (store p) -> li_listing_id li <> l_id l) ->
  reachable p = true ->
  (forall (id : string) (u : user),
     listing_id_in id = Some (l_id l) ->
     u ∈ users (store p) -> l_host_id l = u_id u ->
     exists (row : listing_row) (p' : pool),
       get_listing p id = (res_json (ListingRow row), p') /\
       l_id (lr_listing row) = l_id l /\
       lr_images row = Some []) /\
  (forall (q : query) (x y r : Q),
     JS.truthy (lat q) = true -> JS.truthy (lng q) = true ->
     bind_float8 (lng q) = Value x -> bind_float8 (lat q) = Value y ->
     bind_float8 (JS.or_default (JS.Number 5000) (radius q)) = Value r ->
     l_is_active l = Some true ->
     ST_DWithin (l_location l) (make_geography x y) r = true ->
     exists (rows : list nearby_row) (p' : pool),
       get_listings_nearby p q = (res_json (NearbyRows rows), p') /\
       (exists row, row ∈ rows /\ nr_id row = l_id l) /\
       (forall row, row ∈ rows -> nr_id row = l_id l ->
          nr_images row = None)).
Proof.
  intros Hl Hnone Hup. split.
  - intros id u Hid Hu Hhost.
    destruct (listing_join_known (store p) l u Hl Hu Hhost)
      as (l' & u' & rest & Hjoin & Hid' & _).
    eexists _, _.
    split; [exact (get_listing_found _ _ _ _ _ _ Hup Hid Hjoin)|].
    simpl. split; [exact Hid'|].
    rewrite (images_subquery_id _ l l' Hid').
    rewrite (images_subquery_none _ l Hnone). reflexivity.
  - intros q x y r Hlat Hlng Hx Hy Hr Hactive Hwithin.
    eexists _, _.
    split; [exact (get_listings_nearby_ok p q x y r Hup Hlat Hlng Hx Hy Hr)|].
    split.
    + exists (nearby_select (store p) (make_geography x y) l).
      split; [|reflexivity].
      apply elem_of_nearby_rows. exists l.
      unfold nearby_where.
      rewrite Hwithin, bool_decide_eq_true_2 by exact Hactive. auto.
    + intros row Hrow Hrid.
      apply elem_of_nearby_rows in Hrow as (l' & _ & _ & ->).
      simpl in *. rewrite (images_subquery_id _ l l' Hrid).
      apply images_subquery_none. exact Hnone.
Qed.

(** * Further properties of the handlers *)

(** ** The handlers, one [pool.query] each *)

Lemma pool_query_select_store {A : Type} (p : pool) (q : statement)
    (vs : list JS.value) (run : database -> outcome (A * database)) :
  (forall db rows db', run db = Resolved (rows, db') -> db' = db) ->
  store (pool_query p q vs run).2 = store p.
Proof.
  intros Hrun. unfold pool_query.
  destruct (reachable p); [|reflexivity].
  destruct (run (store p)) as [[rows db']|] eqn:Hq; [|reflexivity].
  simpl. exact (Hrun _ _ _ Hq).
Qed.

Lemma pool_query_reachable {A : Type} (p : pool) (q : statement)
    (vs : list JS.value) (run : database -> outcome (A * database)) :
  reachable (pool_query p q vs run).2 = reachable p.
Proof.
  unfold pool_query.
  destruct (reachable p); [destruct (run (store p)) as [[rows db']|]|];
    reflexivity.
Qed.

Lemma pool_query_unreachable {A : Type} (p : pool) (q : statement)
    (vs : list JS.value) (run : database -> outcome (A * database)) :
  reachable p = false ->
  pool_query p q vs run =
    (Rejected,
     {| store := store p; reachable := false;
        sent := (sent p ++ [(q, vs)])%list |}).
Proof. intros Hdown. unfold pool_query. rewrite Hdown. reflexivity. Qed.

Lemma select_listing_store (v1 : JS.value) (db db' : database)
    (rows : list listing_row) :
  select_listing v1 db = Resolved (rows, db') -> db' = db.
Proof.
  unfold select_listing. destruct (bind listing_id_in v1); congruence.
Qed.

Lemma select_images_store (v1 : JS.value) (db db' : database)
    (rows : list image_object) :
  select_images v1 db = Resolved (rows, db') -> db' = db.
Proof.
  unfold select_images. destruct (bind listing_id_in v1); congruence.
Qed.

Lemma get_listings_nearby_unfold (p : pool) (q : query) :
  get_listings_nearby p q =
    if JS.not (lat q) || JS.not (lng q) then
      (res_status_json 400 (Error "lat and lng are required"), p)
    else
      (match (pool_query p SelectNearby
                [lng q; lat q; JS.or_default (JS.Number 5000) (radius q)]
                (select_nearby (lng q) (lat q)
                   (JS.or_default (JS.Number 5000) (radius q)))).1 with
       | Resolved rows => res_json (NearbyRows rows)
       | Rejected => internal_server_error
       end,
       (pool_query p SelectNearby
          [lng q; lat q; JS.or_default (JS.Number 5000) (radius q)]
          (select_nearby (lng q) (lat q)
             (JS.or_default (JS.Number 5000) (radius q)))).2).
Proof.
  unfold get_listings_nearby.
  destruct (JS.not (lat q) || JS.not (lng q)); [reflexivity|].
  destruct (pool_query _ _ _ _) as [[rows|] p']; reflexivity.
Qed.

Lemma get_listing_unfold (p : pool) (id : string) :
  get_listing p id =
    (match (pool_query p SelectListing [JS.Str id]
              (select_listing (JS.Str id))).1 with
     | Resolved [] => res_status_json 404 (Error "Listing not found")
     | Resolved (row :: _) => res_json (ListingRow row)
     | Rejected => internal_server_error
     end,
     (pool_query p SelectListing [JS.Str id] (select_listing (JS.Str id))).2).
Proof.
  unfold get_listing.
  destruct (pool_query _ _ _ _) as [[[|row rows]|] p']; reflexivity.
Qed.

Lemma get_listing_images_unfold (p : pool) (id : string) :
  get_listing_images p id =
    (match (pool_query p SelectImages [JS.Str id]
              (select_images (JS.Str id))).1 with
     | Resolved rows => res_json (ImageRows rows)
     | Rejected => internal_server_error
     end,
     (pool_query p SelectImages [JS.Str id] (select_images (JS.Str id))).2).
Proof.
  unfold get_listing_images.
  destruct (pool_query _ _ _ _) as [[rows|] p']; reflexivity.
Qed.

Lemma truthy_not (v : JS.value) : JS.truthy v = true -> JS.not v = false.
Proof. intros Hv. unfold JS.not. rewrite Hv. reflexivity. Qed.

Lemma not_or_false (v1 v2 : JS.value) :
  JS.not v1 || JS.not v2 = false <->
  JS.truthy v1 = true /\ JS.truthy v2 = true.
Proof.
  unfold JS.not. rewrite orb_false_iff, !negb_false_iff. reflexivity.
Qed.

(** X1. The three read routes leave the tables as they are, whatever the
    request and whatever the outcome. *)
Theorem reads_keep_tables (p : pool) :
  (forall q : query, store (get_listings_nearby p q).2 = store p) /\
  (forall id : string, store (get_listing p id).2 = store p) /\
  (forall id : string, store (get_listing_images p id).2 = store p).
Proof.
  split; [|split].
  - intros q. rewrite get_listings_nearby_unfold.
    destruct (JS.not (lat q) || JS.not (lng q)); [reflexivity|].
    apply pool_query_select_store.
    intros db rows db'. apply select_nearby_store.
  - intros id. rewrite get_listing_unfold.
    apply pool_query_select_store.
    intros db rows db'. apply select_listing_store.
  - intros id. rewrite get_listing_images_unfold.
    apply pool_query_select_store.
    intros db rows db'. apply select_images_store.
Qed.

(** X2. A read route sends exactly one statement, with the parameters of
    the request in the order the statement numbers them (longitude is
    [$1], latitude [$2]); the proximity search sends none when [lat] or
    [lng] is falsy. *)
Theorem reads_send_one_statement (p : pool) :
  (forall q : query,
     sent (get_listings_nearby p q).2 =
       if JS.truthy (lat q) && JS.truthy (lng q) then
         (sent p ++
          [(SelectNearby,
            [lng q; lat q; JS.or_default (JS.Number 5000) (radius q)])])%list
       else sent p) /\
  (forall id : string,
     sent (get_listing p id).2 =
       (sent p ++ [(SelectListing, [JS.Str id])])%list) /\
  (forall id : string,
     sent (get_listing_images p id).2 =
       (sent p ++ [(SelectImages, [JS.Str id])])%list).
Proof.
  split; [|split].
  - intros q. rewrite get_listings_nearby_unfold. unfold JS.not.
    destruct (JS.truthy (lat q)), (JS.truthy (lng q)); simpl;
      try reflexivity.
    apply pool_query_sent.
  - intros id. rewrite get_listing_unfold. apply pool_query_sent.
  - intros id. rewrite get_listing_images_unfold. apply pool_query_sent.
Qed.

(** X3. The proximity search answers 400 exactly when [lat] or [lng] is
    falsy: absent, or present and empty ([?lat=&lng=36.8]). *)
Theorem nearby_400_iff_falsy (p : pool) (q : query) :
  status (get_listings_nearby p q).1 = 400 <->
  JS.truthy (lat q) = false \/ JS.truthy (lng q) = false.
Proof.
  rewrite get_listings_nearby_unfold. unfold JS.not.
  destruct (JS.truthy (lat q)), (JS.truthy (lng q)); simpl;
    try (split; [auto|reflexivity]).
  destruct (pool_query _ _ _ _).1 as [rows|]; simpl;
    split; try discriminate; intros [?|?]; discriminate.
Qed.

(** ** Failures of the store *)

Lemma select_nearby_invalid (v1 v2 v3 : JS.value) (db : database) :
  bind_float8 v1 = Invalid \/ bind_float8 v2 = Invalid \/
  bind_float8 v3 = Invalid ->
  select_nearby v1 v2 v3 db = Rejected.
Proof.
  unfold select_nearby.
  destruct (bind_float8 v1), (bind_float8 v2), (bind_float8 v3);
    intros [?|[?|?]]; try discriminate; reflexivity.
Qed.

Lemma post_admin_listings_unfold (ADMIN_KEY key : option string) (p : pool)
    (b : listing_body) :
  post_admin_listings ADMIN_KEY p key b =
    if negb (bool_decide (key = ADMIN_KEY)) then
      (res_status_json 401 (Error "Unauthorized"), p)
    else if JS.not (host_id b) || JS.not (title b) || JS.not (price_kes b) ||
            JS.not (latitude b) || JS.not (longitude b) then
      (res_status_json 400 (Error "Missing required fields"), p)
    else
      (match (pool_query p InsertListing
                [host_id b; title b; description b; price_kes b;
                 longitude b; latitude b; location_name b]
                (insert_listing (host_id b) (title b) (description b)
                   (price_kes b) (longitude b) (latitude b)
                   (location_name b))).1 with
       | Resolved rows => res_status_json 201 (InsertedRow (head rows))
       | Rejected => internal_server_error
       end,
       (pool_query p InsertListing
          [host_id b; title b; description b; price_kes b;
           longitude b; latitude b; location_name b]
          (insert_listing (host_id b) (title b) (description b)
             (price_kes b) (longitude b) (latitude b) (location_name b))).2).
Proof.
  unfold post_admin_listings.
  destruct (negb (bool_decide (key = ADMIN_KEY))); [reflexivity|].
  destruct (_ || _); [reflexivity|].
  destruct (pool_query _ _ _ _) as [[rows|] p']; reflexivity.
Qed.

Lemma required_truthy (b : listing_body) :
  JS.truthy (host_id b) = true -> JS.truthy (title b) = true ->
  JS.truthy (price_kes b) = true -> JS.truthy (latitude b) = true ->
  JS.truthy (longitude b) = true ->
  JS.not (host_id b) || JS.not (title b) || JS.not (price_kes b) ||
  JS.not (latitude b) || JS.not (longitude b) = false.
Proof.
  intros H1 H2 H3 H4 H5. unfold JS.not.
  rewrite H1, H2, H3, H4, H5. reflexivity.
Qed.

(** What the insertion does to the tables when it goes through. *)
Lemma insert_listing_resolved (v1 v2 v3 v4 v5 v6 v7 : JS.value)
    (db db' : database) (rows : list listing) :
  insert_listing v1 v2 v3 v4 v5 v6 v7 db = Resolved (rows, db') ->
  exists row : listing,
    rows = [row] /\
    listings db' = (listings db ++ [row])%list /\
    listing_images db' = listing_images db /\
    users db' = users db.
Proof.
  unfold insert_listing.
  destruct (bind user_id_in v1); try discriminate.
  destruct (prepareValue v2); try discriminate.
  destruct (bind price_in v4); try discriminate.
  destruct (bind_float8 v5); try discriminate.
  destruct (bind_float8 v6); try discriminate.
  destruct (constraints_hold _ _); try discriminate.
  intros [= <- <-]. eexists. simpl. repeat split; reflexivity.
Qed.

(** X4. When the store cannot be reached every route that gets as far
    as its statement answers 500 [Internal server error], and the
    creation stores nothing. *)
Theorem unreachable_store_500 (p : pool) :
  reachable p = false ->
  (forall q : query,
     JS.truthy (lat q) = true -> JS.truthy (lng q) = true ->
     (get_listings_nearby p q).1 = internal_server_error) /\
  (forall id : string, (get_listing p id).1 = internal_server_error) /\
  (forall id : string, (get_listing_images p id).1 = internal_server_error) /\
  (forall (ADMIN_KEY : option string) (b : listing_body),
     JS.truthy (host_id b) = true -> JS.truthy (title b) = true ->
     JS.truthy (price_kes b) = true -> JS.truthy (latitude b) = true ->
     JS.truthy (longitude b) = true ->
     (post_admin_listings ADMIN_KEY p ADMIN_KEY b).1 = internal_server_error /\
     store (post_admin_listings ADMIN_KEY p ADMIN_KEY b).2 = store p).
Proof.
  intros Hdown. repeat split.
  - intros q Hlat Hlng. rewrite get_listings_nearby_unfold.
    rewrite (proj2 (not_or_false _ _) (conj Hlat Hlng)).
    rewrite pool_query_unreachable by exact Hdown. reflexivity.
  - intros id. rewrite get_listing_unfold.
    rewrite pool_query_unreachable by exact Hdown. reflexivity.
  - intros id. rewrite get_listing_images_unfold.
    rewrite pool_query_unreachable by exact Hdown. reflexivity.
  - rewrite post_admin_listings_unfold.
    rewrite bool_decide_eq_true_2 by reflexivity. simpl.
    rewrite required_truthy by assumption.
    rewrite pool_query_unreachable by exact Hdown. reflexivity.
  - rewrite post_admin_listings_unfold.
    rewrite bool_decide_eq_true_2 by reflexivity. simpl.
    rewrite required_truthy by assumption.
    rewrite pool_query_unreachable by exact Hdown. reflexivity.
Qed.

(** X5. A proximity search whose [lat], [lng] or [radius] is present
    but does not read as a number ([?lat=north]) is answered 500, not
    400. *)
Theorem nearby_unreadable_number_500 (p : pool) (q : query) :
  JS.truthy (lat q) = true -> JS.truthy (lng q) = true ->
  bind_float8 (lng q) = Invalid \/ bind_float8 (lat q) = Invalid \/
  bind_float8 (JS.or_default (JS.Number 5000) (radius q)) = Invalid ->
  (get_listings_nearby p q).1 = internal_server_error.
Proof.
  intros Hlat Hlng Hbad. rewrite get_listings_nearby_unfold.
  rewrite (proj2 (not_or_false _ _) (conj Hlat Hlng)). simpl.
  rewrite pool_query_rejected; [reflexivity|].
  right. apply select_nearby_invalid. exact Hbad.
Qed.

(** X6. An identifier in the path that the identity column does not
    read is answered 500 by the single-listing route and by the image
    route alike. *)
Theorem unreadable_id_500 (p : pool) (id : string) :
  listing_id_in id = None ->
  (get_listing p id).1 = internal_server_error /\
  (get_listing_images p id).1 = internal_server_error.
Proof.
  intros Hid. split.
  - rewrite get_listing_unfold. simpl.
    rewrite pool_query_rejected; [reflexivity|].
    right. unfold select_listing, bind. simpl. rewrite Hid. reflexivity.
  - rewrite get_listing_images_unfold. simpl.
    rewrite pool_query_rejected; [reflexivity|].
    right. unfold select_images, bind. simpl. rewrite Hid. reflexivity.
Qed.

(** ** Creation *)

(** X7. The creation answers 401 exactly when the header differs from
    [process.env.ADMIN_KEY]; in particular, with the variable unset, a
    request without the header is not turned away. *)
Theorem admin_401_iff_key_differs (ADMIN_KEY key : option string) (p : pool)
    (b : listing_body) :
  status (post_admin_listings ADMIN_KEY p key b).1 = 401 <->
  key <> ADMIN_KEY.
Proof.
  rewrite post_admin_listings_unfold.
  destruct (decide (key = ADMIN_KEY)) as [Heq|Hne].
  - rewrite bool_decide_eq_true_2 by exact Heq. simpl.
    destruct (_ || _); simpl.
    + split; [discriminate|contradiction].
    + destruct (pool_query _ _ _ _).1 as [rows|]; simpl;
        (split; [discriminate|contradiction]).
  - rewrite bool_decide_eq_false_2 by exact Hne. simpl. tauto.
Qed.

(** X8. A creation with the right key, the five required fields truthy
    and readable, and the constraints of [listings] satisfied is answered
    201 with the stored row: the host, title and price of the body, the
    point made of (longitude, latitude) in that order, NULL for an absent
    description or location name, the defaults for the flags.  The row
    is appended to [listings]; the parameters go out longitude first. *)
Theorem admin_creates_listing (ADMIN_KEY : option string) (p : pool)
    (b : listing_body) (host : user_id) (t : string) (pr : price)
    (lng' lat' : Q) :
  reachable p = true ->
  JS.truthy (host_id b) = true -> JS.truthy (title b) = true ->
  JS.truthy (price_kes b) = true -> JS.truthy (latitude b) = true ->
  JS.truthy (longitude b) = true ->
  bind user_id_in (host_id b) = Value host ->
  prepareValue (title b) = Some t ->
  bind price_in (price_kes b) = Value pr ->
  bind_float8 (longitude b) = Value lng' ->
  bind_float8 (latitude b) = Value lat' ->
  constraints_hold (store p)
    {| l_id := new_listing_id (store p); l_host_id := host; l_title := t;
       l_description := prepareValue (description b); l_price_kes := pr;
       l_location := make_geography lng' lat';
       l_location_name := prepareValue (location_name b);
       l_is_active := default_is_active;
       l_is_featured := default_is_featured |} = true ->
  post_admin_listings ADMIN_KEY p ADMIN_KEY b =
    (res_status_json 201
       (InsertedRow
          (Some
             {| l_id := new_listing_id (store p); l_host_id := host;
                l_title := t;
                l_description := prepareValue (description b);
                l_price_kes := pr;
                l_location := make_geography lng' lat';
                l_location_name := prepareValue (location_name b);
                l_is_active := default_is_active;
                l_is_featured := default_is_featured |})),
     {| store :=
          {| listings :=
               (listings (store p) ++
                [{| l_id := new_listing_id (store p); l_host_id := host;
                    l_title := t;
                    l_description := prepareValue (description b);
                    l_price_kes := pr;
                    l_location := make_geography lng' lat';
                    l_location_name := prepareValue (location_name b);
                    l_is_active := default_is_active;
                    l_is_featured := default_is_featured |}])%list;
             listing_images := listing_images (store p);
             users := users (store p) |};
        reachable := true;
        sent :=
          (sent p ++
           [(InsertListing,
             [host_id b; title b; description b; price_kes b;
              longitude b; latitude b; location_name b])])%list |}).
Proof.
  intros Hup H1 H2 H3 H4 H5 Hhost Ht Hpr Hlng Hlat Hok.
  rewrite post_admin_listings_unfold.
  rewrite bool_decide_eq_true_2 by reflexivity. simpl.
  rewrite required_truthy by assumption.
  rewrite (pool_query_resolved p _ _ _
             [{| l_id := new_listing_id (store p); l_host_id := host;
                 l_title := t;
                 l_description := prepareValue (description b);
                 l_price_kes := pr;
                 l_location := make_geography lng' lat';
                 l_location_name := prepareValue (location_name b);
                 l_is_active := default_is_active;
                 l_is_featured := default_is_featured |}]
             {| listings :=
                  (listings (store p) ++
                   [{| l_id := new_listing_id (store p); l_host_id := host;
                       l_title := t;
                       l_description := prepareValue (description b);
                       l_price_kes := pr;
                       l_location := make_geography lng' lat';
                       l_location_name := prepareValue (location_name b);
                       l_is_active := default_is_active;
                       l_is_featured := default_is_featured |}])%list;
                listing_images := listing_images (store p);
                users := users (store p) |} Hup).
  - reflexivity.
  - unfold insert_listing. rewrite Hhost, Ht, Hpr, Hlng, Hlat, Hok.
    reflexivity.
Qed.

(** X9. Whatever the request and the outcome, the creation leaves
    [users] and [listing_images] as they are; it leaves [listings] as it
    is unless it answers 201, and then [listings] is what it was followed
    by the row of the answer. *)
Theorem creation_only_appends (ADMIN_KEY key : option string) (p : pool)
    (b : listing_body) :
  users (store (post_admin_listings ADMIN_KEY p key b).2) = users (store p) /\
  listing_images (store (post_admin_listings ADMIN_KEY p key b).2) =
    listing_images (store p) /\
  (status (post_admin_listings ADMIN_KEY p key b).1 <> 201 ->
   store (post_admin_listings ADMIN_KEY p key b).2 = store p) /\
  (status (post_admin_listings ADMIN_KEY p key b).1 = 201 ->
   exists row : listing,
     body (post_admin_listings ADMIN_KEY p key b).1 = InsertedRow (Some row) /\
     listings (store (post_admin_listings ADMIN_KEY p key b).2) =
       (listings (store p) ++ [row])%list).
Proof.
  rewrite post_admin_listings_unfold.
  destruct (negb (bool_decide (key = ADMIN_KEY))).
  { simpl. repeat split; try reflexivity; discriminate. }
  destruct (_ || _).
  { simpl. repeat split; try reflexivity; discriminate. }
  unfold pool_query. destruct (reachable p).
  2: { simpl. repeat split; try reflexivity; discriminate. }
  destruct (insert_listing _ _ _ _ _ _ _ (store p)) as [[rows db']|] eqn:Hq.
  2: { simpl. repeat split; try reflexivity; discriminate. }
  destruct (insert_listing_resolved _ _ _ _ _ _ _ _ _ _ Hq)
    as (row & -> & Hls & Hims & Hus).
  simpl. repeat split; try assumption.
  - intros Hne. destruct (Hne eq_refl).
  - intros _. exists row. split; [reflexivity|exact Hls].
Qed.

(** X10. With the right key and the required fields truthy, a creation
    whose [host_id], [price_kes], [latitude] or [longitude] does not
    read at the type of its column ([latitude: "north"]) is answered 500
    and stores nothing. *)
Theorem admin_unreadable_field_500 (ADMIN_KEY : option string) (p : pool)
    (b : listing_body) :
  JS.truthy (host_id b) = true -> JS.truthy (title b) = true ->
  JS.truthy (price_kes b) = true -> JS.truthy (latitude b) = true ->
  JS.truthy (longitude b) = true ->
  bind user_id_in (host_id b) = Invalid \/
  bind price_in (price_kes b) = Invalid \/
  bind_float8 (latitude b) = Invalid \/
  bind_float8 (longitude b) = Invalid ->
  (post_admin_listings ADMIN_KEY p ADMIN_KEY b).1 = internal_server_error /\
  store (post_admin_listings ADMIN_KEY p ADMIN_KEY b).2 = store p.
Proof.
  intros H1 H2 H3 H4 H5 Hbad.
  assert (insert_listing (host_id b) (title b) (description b) (price_kes b)
            (longitude b) (latitude b) (location_name b) (store p) = Rejected)
    as Hq.
  { unfold insert_listing.
    destruct (bind user_id_in (host_id b)), (prepareValue (title b)),
             (bind price_in (price_kes b)), (bind_float8 (longitude b)),
             (bind_float8 (latitude b));
      try reflexivity;
      destruct Hbad as [?|[?|[?|?]]]; discriminate. }
  rewrite post_admin_listings_unfold.
  rewrite bool_decide_eq_true_2 by reflexivity. simpl.
  rewrite required_truthy by assumption.
  unfold pool_query. rewrite Hq.
  destruct (reachable p); split; reflexivity.
Qed.

(** X11. With the right key and readable fields, a creation that the
    constraints of [listings] reject (a host that is no user, under a
    foreign key) is answered 500 and stores nothing. *)
Theorem admin_constraint_violation_500 (ADMIN_KEY : option string) (p : pool)
    (b : listing_body) (host : user_id) :
  JS.truthy (host_id b) = true -> JS.truthy (title b) = true ->
  JS.truthy (price_kes b) = true -> JS.truthy (latitude b) = true ->
  JS.truthy (longitude b) = true ->
  bind user_id_in (host_id b) = Value host ->
  (forall row : listing,
     l_host_id row = host -> constraints_hold (store p) row = false) ->
  (post_admin_listings ADMIN_KEY p ADMIN_KEY b).1 = internal_server_error /\
  store (post_admin_listings ADMIN_KEY p ADMIN_KEY b).2 = store p.
Proof.
  intros H1 H2 H3 H4 H5 Hhost Hreject.
  assert (insert_listing (host_id b) (title b) (description b) (price_kes b)
            (longitude b) (latitude b) (location_name b) (store p) = Rejected)
    as Hq.
  { unfold insert_listing. rewrite Hhost.
    destruct (prepareValue (title b)), (bind price_in (price_kes b)),
             (bind_float8 (longitude b)), (bind_float8 (latitude b));
      try reflexivity.
    rewrite Hreject by reflexivity. reflexivity. }
  rewrite post_admin_listings_unfold.
  rewrite bool_decide_eq_true_2 by reflexivity. simpl.
  rewrite required_truthy by assumption.
  unfold pool_query. rewrite Hq.
  destruct (reachable p); split; reflexivity.
Qed.

(** ** What a response that carries rows says of the request *)

Lemma get_listing_row_inv (p p' : pool) (id : string) (resp : response)
    (row : listing_row) :
  get_listing p id = (resp, p') ->
  body resp = ListingRow row ->
  reachable p = true /\
  exists (i : listing_id) (l : listing) (u : user)
         (rest : list (listing * user)),
    listing_id_in id = Some i /\
    listing_join (store p) i = (l, u) :: rest /\
    row = listing_select (store p) l u.
Proof.
  rewrite get_listing_unfold. unfold pool_query.
  destruct (reachable p).
  2: { intros [= <- _]. discriminate. }
  unfold select_listing, bind. simpl.
  destruct (listing_id_in id) as [i|].
  2: { intros [= <- _]. discriminate. }
  destruct (listing_join (store p) i) as [|[l u] rest] eqn:Hjoin; simpl.
  { intros [= <- _]. discriminate. }
  intros [= <- _] [= <-]. split; [reflexivity|].
  exists i, l, u, rest. auto.
Qed.

Lemma get_listings_nearby_reachable (p p' : pool) (q : query)
    (resp : response) (rows : list nearby_row) :
  get_listings_nearby p q = (resp, p') ->
  body resp = NearbyRows rows ->
  reachable p = true.
Proof.
  rewrite get_listings_nearby_unfold. unfold pool_query.
  destruct (JS.not (lat q) || JS.not (lng q)).
  { intros [= <- _]. discriminate. }
  destruct (reachable p); [reflexivity|].
  intros [= <- _]. discriminate.
Qed.

Lemma select_nearby_elem (v1 v2 v3 : JS.value) (db db' : database)
    (rows : list nearby_row) (row : nearby_row) :
  select_nearby v1 v2 v3 db = Resolved (rows, db') ->
  row ∈ rows ->
  exists (center : geography) (r : Q) (l : listing),
    l ∈ listings db /\ nearby_where center r l = true /\
    row = nearby_select db center l.
Proof.
  unfold select_nearby.
  destruct (bind_float8 v1) as [x| |], (bind_float8 v2) as [y| |],
           (bind_float8 v3) as [r| |];
    intros Hq; try discriminate; injection Hq as <- _; intros Hrow;
    try (apply elem_of_nil in Hrow; destruct Hrow).
  exists (make_geography x y), r.
  apply elem_of_nearby_rows. exact Hrow.
Qed.

Lemma select_nearby_ids (v1 v2 v3 : JS.value) (db db' : database)
    (rows : list nearby_row) :
  select_nearby v1 v2 v3 db = Resolved (rows, db') ->
  exists ls : list listing,
    ls `sublist_of` listings db /\ nr_id <$> rows ≡ₚ l_id <$> ls.
Proof.
  unfold select_nearby.
  destruct (bind_float8 v1) as [x| |], (bind_float8 v2) as [y| |],
           (bind_float8 v3) as [r| |];
    intros Hq; try discriminate; injection Hq as <- _;
    try (exists []; split; [apply sublist_nil_l|reflexivity]).
  exists (filter (fun l => nearby_where (make_geography x y) r l)
            (listings db)).
  split; [apply sublist_filter|].
  rewrite merge_sort_Permutation, <- list_fmap_compose. reflexivity.
Qed.

Lemma NoDup_fmap_eq {A B : Type} (f : A -> B) (l : list A) (x y : A) :
  NoDup (f <$> l) -> x ∈ l -> y ∈ l -> f x = f y -> x = y.
Proof.
  induction l as [|a l IH]; csimpl; intros Hnd Hx Hy Hf.
  - apply elem_of_nil in Hx. destruct Hx.
  - apply NoDup_cons in Hnd as [Ha Hnd].
    apply elem_of_cons in Hx as [->|Hx], Hy as [->|Hy].
    + reflexivity.
    + destruct Ha. rewrite Hf. apply list_elem_of_fmap_2. exact Hy.
    + destruct Ha. rewrite <- Hf. apply list_elem_of_fmap_2. exact Hx.
    + apply IH; assumption.
Qed.

(** The images of a listing as both aggregations and the image route
    select them. *)
Lemma images_subquery_filter (db : database) (l : listing) :
  images_subquery db l =
    json_agg
      (images_select <$>
         filter (fun li => li_listing_id li = l_id l) (listing_images db)).
Proof. reflexivity. Qed.

Lemma COALESCE_json_agg {A : Type} (rows : list A) :
  COALESCE (json_agg rows) [] = Some rows.
Proof. destruct rows; reflexivity. Qed.

(** ** Single listing *)

(** X12. A stored listing whose host is no row of [users] is answered
    404 [Listing not found]: the statement joins [users]. *)
Theorem get_listing_without_host_404 (p : pool) (id : string)
    (i : listing_id) :
  reachable p = true ->
  listing_id_in id = Some i ->
  (forall (l : listing) (u : user),
     l ∈ listings (store p) -> l_id l = i -> u ∈ users (store p) ->
     l_host_id l <> u_id u) ->
  (get_listing p id).1 = res_status_json 404 (Error "Listing not found").
Proof.
  intros Hup Hid Hnone.
  rewrite (get_listing_not_found p id i Hup Hid); [reflexivity|].
  destruct (listing_join (store p) i) as [|[l u] rest] eqn:Hjoin;
    [reflexivity|].
  assert ((l, u) ∈ listing_join (store p) i) as Hin
    by (rewrite Hjoin; constructor).
  apply elem_of_listing_join in Hin as (Hl & Hli & Hu & Hhost).
  destruct (Hnone l u Hl Hli Hu Hhost).
Qed.

(** X13. The row of a 200 answer of the single-listing route is made of
    a stored listing with the identity asked for and of a stored user
    with the identity of its host: the listing's columns, that user's
    name, phone and whatsapp. *)
Theorem get_listing_row_sound (p p' : pool) (id : string) (resp : response)
    (row : listing_row) :
  get_listing p id = (resp, p') ->
  body resp = ListingRow row ->
  status resp = 200 /\
  lr_listing row ∈ listings (store p) /\
  listing_id_in id = Some (l_id (lr_listing row)) /\
  exists u : user,
    u ∈ users (store p) /\ u_id u = l_host_id (lr_listing row) /\
    lr_host_name row = u_name u /\ lr_host_phone row = u_phone u /\
    lr_host_whatsapp row = u_whatsapp u.
Proof.
  intros Hget Hbody.
  destruct (get_listing_row_inv _ _ _ _ _ Hget Hbody)
    as (Hup & i & l & u & rest & Hid & Hjoin & ->).
  assert ((l, u) ∈ listing_join (store p) i) as Hin
    by (rewrite Hjoin; constructor).
  apply elem_of_listing_join in Hin as (Hl & Hli & Hu & Hhost).
  rewrite (get_listing_found p id i l u rest Hup Hid Hjoin) in Hget.
  injection Hget as <- _. simpl. subst i. repeat split; try assumption.
  exists u. auto.
Qed.

(** X14. When the identities of [listings] are distinct, the fetch of a
    stored listing whose host is a user answers 200 with that very
    listing. *)
Theorem get_listing_returns_stored (p : pool) (id : string) (l : listing)
    (u : user) :
  reachable p = true ->
  NoDup (l_id <$> listings (store p)) ->
  l ∈ listings (store p) ->
  listing_id_in id = Some (l_id l) ->
  u ∈ users (store p) -> l_host_id l = u_id u ->
  exists (row : listing_row) (p' : pool),
    get_listing p id = (res_json (ListingRow row), p') /\
    lr_listing row = l.
Proof.
  intros Hup Hnd Hl Hid Hu Hhost.
  destruct (listing_join_known (store p) l u Hl Hu Hhost)
    as (l' & u' & rest & Hjoin & Hid' & Hl').
  eexists _, _.
  split; [exact (get_listing_found _ _ _ _ _ _ Hup Hid Hjoin)|].
  simpl. exact (NoDup_fmap_eq l_id _ _ _ Hnd Hl' Hl Hid').
Qed.

(** X15. The [images] of a fetched listing are the rows the image route
    answers for the same identifier, up to order; they are an array even
    when there is none. *)
Theorem get_listing_images_agree (p p' : pool) (id : string)
    (resp : response) (row : listing_row) :
  get_listing p id = (resp, p') ->
  body resp = ListingRow row ->
  exists (images rows : list image_object) (p'' : pool),
    lr_images row = Some images /\
    get_listing_images p id = (res_json (ImageRows rows), p'') /\
    rows ≡ₚ images.
Proof.
  intros Hget Hbody.
  destruct (get_listing_row_inv _ _ _ _ _ Hget Hbody)
    as (Hup & i & l & u & rest & Hid & Hjoin & ->).
  assert ((l, u) ∈ listing_join (store p) i) as Hin
    by (rewrite Hjoin; constructor).
  apply elem_of_listing_join in Hin as (_ & Hli & _ & _). subst i.
  eexists _, _, _. split; [|split].
  - simpl. rewrite images_subquery_filter. apply COALESCE_json_agg.
  - exact (get_listing_images_ok p id (l_id l) Hup Hid).
  - apply merge_sort_Permutation.
Qed.

(** ** Proximity search *)

(** X16. The [images] of a row of the proximity search are the rows the
    image route answers for the identity of the row, up to order, but
    NULL instead of the empty array. *)
Theorem nearby_images_agree (p p' : pool) (q : query) (resp : response)
    (rows : list nearby_row) (row : nearby_row) (id : string) :
  get_listings_nearby p q = (resp, p') ->
  body resp = NearbyRows rows ->
  row ∈ rows ->
  listing_id_in id = Some (nr_id row) ->
  exists (images rows' : list image_object) (p'' : pool),
    nr_images row = json_agg images /\
    get_listing_images p id = (res_json (ImageRows rows'), p'') /\
    rows' ≡ₚ images.
Proof.
  intros Hget Hbody Hrow Hid.
  pose proof (get_listings_nearby_reachable _ _ _ _ _ Hget Hbody) as Hup.
  pose proof (get_listings_nearby_rows _ _ _ _ _ Hget Hbody) as Hq.
  destruct (select_nearby_elem _ _ _ _ _ _ _ Hq Hrow)
    as (center & r & l & _ & _ & ->).
  simpl in Hid. eexists _, _, _. split; [|split].
  - simpl. apply images_subquery_filter.
  - exact (get_listing_images_ok p id (l_id l) Hup Hid).
  - apply merge_sort_Permutation.
Qed.

(** X17. When the identities of [listings] are distinct, so are the
    identities of the rows of a proximity search: no listing comes
    twice. *)
Theorem nearby_ids_distinct (p p' : pool) (q : query) (resp : response)
    (rows : list nearby_row) :
  NoDup (l_id <$> listings (store p)) ->
  get_listings_nearby p q = (resp, p') ->
  body resp = NearbyRows rows ->
  NoDup (nr_id <$> rows).
Proof.
  intros Hnd Hget Hbody.
  pose proof (get_listings_nearby_rows _ _ _ _ _ Hget Hbody) as Hq.
  destruct (select_nearby_ids _ _ _ _ _ _ Hq) as (ls & Hsub & Hperm).
  rewrite Hperm.
  apply (sublist_NoDup _ (l_id <$> listings (store p))); [exact Hnd|].
  apply fmap_sublist. exact Hsub.
Qed.

(** ** Creation followed by a read *)

Lemma post_admin_listings_created_reachable (ADMIN_KEY key : option string)
    (p p' : pool) (b : listing_body) (resp : response) :
  post_admin_listings ADMIN_KEY p key b = (resp, p') ->
  status resp = 201 ->
  reachable p = true.
Proof.
  rewrite post_admin_listings_unfold. unfold pool_query.
  destruct (negb (bool_decide (key = ADMIN_KEY))).
  { intros [= <- _]. discriminate. }
  destruct (_ || _).
  { intros [= <- _]. discriminate. }
  destruct (reachable p); [reflexivity|].
  intros [= <- _]. discriminate.
Qed.

(** The join on another identity does not see the new row. *)
Lemma listing_join_other (db db' : database) (row : listing)
    (i : listing_id) :
  listings db' = (listings db ++ [row])%list ->
  users db' = users db ->
  i <> l_id row ->
  listing_join db' i = listing_join db i.
Proof.
  intros Hls Hus Hne. unfold listing_join.
  rewrite Hls, Hus, filter_app.
  rewrite (filter_cons_False _ row []) by (intros Heq; apply Hne; auto).
  rewrite filter_nil, app_nil_r. reflexivity.
Qed.

(** X18. Through the proximity search the coordinates of a created
    listing come back under their own names: after a 201 with in-range
    coordinates, a search that selects the new row (it is active, and
    within the radius of the centre) has a row with its identity whose
    [latitude] and [longitude] are those of the request. *)
Theorem create_then_nearby_round_trip (ADMIN_KEY key : option string)
    (p p' : pool) (b : listing_body) (resp : response) (row : listing)
    (lat' lng' : Q) (q : query) (x y r : Q) :
  post_admin_listings ADMIN_KEY p key b = (resp, p') ->
  status resp = 201 -> body resp = InsertedRow (Some row) ->
  bind_float8 (latitude b) = Value lat' ->
  bind_float8 (longitude b) = Value lng' ->
  geodetic (ST_SetSRID (ST_MakePoint lng' lat') 4326) = true ->
  JS.truthy (lat q) = true -> JS.truthy (lng q) = true ->
  bind_float8 (lng q) = Value x -> bind_float8 (lat q) = Value y ->
  bind_float8 (JS.or_default (JS.Number 5000) (radius q)) = Value r ->
  l_is_active row = Some true ->
  ST_DWithin (l_location row) (make_geography x y) r = true ->
  exists (rows : list nearby_row) (p'' : pool) (found : nearby_row),
    get_listings_nearby p' q = (res_json (NearbyRows rows), p'') /\
    found ∈ rows /\ nr_id found = l_id row /\
    nr_latitude found = lat' /\ nr_longitude found = lng'.
Proof.
  intros Hpost Hstatus Hbody Hlat Hlng Hin Hqlat Hqlng Hx Hy Hr Hactive Hwithin.
  destruct (post_admin_listings_created _ _ _ _ _ _ Hpost Hstatus)
    as (row' & x0 & y0 & Hbody' & Hx0 & Hy0 & Hloc & _ & Hls & _ & _ & Hup).
  assert (row' = row) as -> by congruence.
  assert (x0 = lng') as -> by congruence.
  assert (y0 = lat') as -> by congruence.
  eexists _, _, (nearby_select (store p') (make_geography x y) row).
  split; [exact (get_listings_nearby_ok p' q x y r Hup Hqlat Hqlng Hx Hy Hr)|].
  split.
  - apply elem_of_nearby_rows. exists row. split; [|split].
    + rewrite Hls. apply elem_of_app. right. constructor.
    + unfold nearby_where.
      rewrite Hwithin, bool_decide_eq_true_2 by exact Hactive. reflexivity.
    + reflexivity.
  - simpl. rewrite Hloc.
    destruct (make_geography_geodetic _ _ Hin) as [HX HY]. auto.
Qed.

(** X19. A creation does not disturb the fetch of the other listings:
    for an identifier other than the new one, the single-listing route
    answers after the creation what it answered before. *)
Theorem creation_keeps_other_fetches (ADMIN_KEY key : option string)
    (p p' : pool) (b : listing_body) (resp : response) (row : listing)
    (id : string) (i : listing_id) :
  post_admin_listings ADMIN_KEY p key b = (resp, p') ->
  status resp = 201 -> body resp = InsertedRow (Some row) ->
  listing_id_in id = Some i -> i <> l_id row ->
  (get_listing p' id).1 = (get_listing p id).1.
Proof.
  intros Hpost Hstatus Hbody Hid Hne.
  pose proof (post_admin_listings_created_reachable _ _ _ _ _ _ Hpost Hstatus)
    as Hup.
  destruct (post_admin_listings_created _ _ _ _ _ _ Hpost Hstatus)
    as (row' & _ & _ & Hbody' & _ & _ & _ & _ & Hls & Hims & Hus & Hup').
  assert (row' = row) as -> by congruence.
  rewrite !get_listing_unfold. unfold pool_query.
  rewrite Hup, Hup'. unfold select_listing.
  rewrite (bind_str _ _ _ Hid).
  rewrite (listing_join_other (store p) (store p') row i Hls Hus Hne).
  unfold listing_select, images_subquery. rewrite Hims. reflexivity.
Qed.

(** ** The two revisions *)

(** X20. The two revisions of the single-listing route answer with the
    same status, and in a 200 with the same listing and host columns;
    the value one revision names [latitude] the other names
    [longitude], and the other way round. *)
Theorem fetch_revisions_agree (p : pool) (id : string) :
  Part000.status (Part000.get_listing p id).1 = status (get_listing p id).1 /\
  forall row : listing_row,
    body (get_listing p id).1 = ListingRow row ->
    exists row0 : Part000.listing_row,
      Part000.body (Part000.get_listing p id).1 = Part000.ListingRow row0 /\
      Part000.lr_listing row0 = lr_listing row /\
      Part000.lr_host_name row0 = lr_host_name row /\
      Part000.lr_host_phone row0 = lr_host_phone row /\
      Part000.lr_host_whatsapp row0 = lr_host_whatsapp row /\
      Part000.lr_longitude row0 = lr_latitude row /\
      Part000.lr_latitude row0 = lr_longitude row.
Proof.
  unfold Part000.get_listing, get_listing, pool_query.
  destruct (reachable p).
  2: { simpl. split; [reflexivity|discriminate]. }
  unfold Part000.select_listing, select_listing.
  destruct (bind listing_id_in (JS.Str id)) as [i| |].
  - destruct (listing_join (store p) i) as [|[l u] rest]; simpl.
    + split; [reflexivity|discriminate].
    + split; [reflexivity|]. intros row [= <-]. eexists. repeat split.
  - simpl. split; [reflexivity|discriminate].
  - simpl. split; [reflexivity|discriminate].
Qed.

(** X21. The two revisions of the proximity search answer with the
    same status, and in a 200 the rows of the earlier revision are the
    rows of [server.js] less their [images], up to order; they too come
    featured first and by distance within the same flag. *)
Theorem nearby_revisions_agree (p : pool) (q : query) :
  Part000.status (Part000.get_listings_nearby p q).1 =
    status (get_listings_nearby p q).1 /\
  forall rows : list nearby_row,
    body (get_listings_nearby p q).1 = NearbyRows rows ->
    exists rows0 : list Part000.nearby_row,
      Part000.body (Part000.get_listings_nearby p q).1 =
        Part000.NearbyRows rows0 /\
      rows0 ≡ₚ
        (fun r =>
           {| Part000.nr_id := nr_id r;
              Part000.nr_host_id := nr_host_id r;
              Part000.nr_title := nr_title r;
              Part000.nr_description := nr_description r;
              Part000.nr_price_kes := nr_price_kes r;
              Part000.nr_location_name := nr_location_name r;
              Part000.nr_is_featured := nr_is_featured r;
              Part000.nr_longitude := nr_longitude r;
              Part000.nr_latitude := nr_latitude r;
              Part000.nr_distance := nr_distance r |}) <$> rows /\
      forall (i j : nat) (ri rj : Part000.nearby_row),
        rows0 !! i = Some ri -> rows0 !! j = Some rj -> (i < j)%nat ->
        (Part000.nr_is_featured ri = Some false ->
         Part000.nr_is_featured rj <> Some true) /\
        (Part000.nr_is_featured ri = Part000.nr_is_featured rj ->
         (Part000.nr_distance ri <= Part000.nr_distance rj)%Q).
Proof.
  unfold Part000.get_listings_nearby, get_listings_nearby, pool_query.
  destruct (JS.not (lat q) || JS.not (lng q)).
  { simpl. split; [reflexivity|discriminate]. }
  rewrite Part000_select_nearby.
  destruct (reachable p).
  2: { simpl. split; [reflexivity|discriminate]. }
  destruct (select_nearby _ _ _ (store p)) as [[rows db']|] eqn:Hq; simpl.
  2: { split; [reflexivity|discriminate]. }
  split; [reflexivity|]. intros rows' [= <-].
  exists (without_images <$> rows). split; [reflexivity|].
  split; [reflexivity|].
  intros i j ri rj Hi Hj Hlt.
  apply list_lookup_fmap_Some in Hi as (ri' & -> & Hi).
  apply list_lookup_fmap_Some in Hj as (rj' & -> & Hj).
  simpl. apply nearby_le_featured.
  apply (StronglySorted_lookup_lt nearby_le rows i j); try assumption.
  exact (select_nearby_sorted _ _ _ _ _ _ Hq).
Qed.

(** X23. In the earlier revision the creation and the fetch round-trip:
    after a 201 with in-range coordinates, a new identity and a host
    that is a user, the fetch of the new identity answers 200 with the
    created row and with [latitude] and [longitude] as the request gave
    them. *)
Theorem earlier_revision_round_trip (ADMIN_KEY key : option string)
    (p p' : pool) (b : listing_body) (resp : response) (row : listing)
    (lat' lng' : Q) (id : string) :
  post_admin_listings ADMIN_KEY p key b = (resp, p') ->
  status resp = 201 -> body resp = InsertedRow (Some row) ->
  bind_float8 (latitude b) = Value lat' ->
  bind_float8 (longitude b) = Value lng' ->
  geodetic (ST_SetSRID (ST_MakePoint lng' lat') 4326) = true ->
  (forall l, l ∈ listings (store p) -> l_id l <> l_id row) ->
  (exists u, u ∈ users (store p) /\ l_host_id row = u_id u) ->
  listing_id_in id = Some (l_id row) ->
  exists (fetched : Part000.listing_row) (p'' : pool),
    Part000.get_listing p' id =
      (Part000.res_json (Part000.ListingRow fetched), p'') /\
    Part000.lr_listing fetched = row /\
    Part000.lr_latitude fetched = lat' /\
    Part000.lr_longitude fetched = lng'.
Proof.
  intros Hpost Hstatus Hbody Hlat Hlng Hin Hnew Hhost Hid.
  destruct (post_admin_listings_created _ _ _ _ _ _ Hpost Hstatus)
    as (row' & x & y & Hbody' & Hx & Hy & Hloc & _ & Hls & _ & Hus & Hup).
  assert (row' = row) as -> by congruence.
  assert (x = lng') as -> by congruence.
  assert (y = lat') as -> by congruence.
  destruct (listing_join_created (store p) (store p') row Hls Hus Hnew Hhost)
    as (u & rest & Hjoin).
  rewrite (Part000_get_listing_found p' id (l_id row) row u rest Hup Hid Hjoin).
  eexists _, _. split; [reflexivity|]. simpl. rewrite Hloc.
  destruct (make_geography_geodetic _ _ Hin) as [HX HY]. auto.
Qed.

End Properties.

(** * The properties on the concrete store *)

Section OnDemo.
#[local] Existing Instance Demo.schema.
#[local] Existing Instance Demo.engine.

Lemma Demo_dwithin_distance : DWithinDistance.
Proof. intros a b r. simpl. apply Qle_bool_iff. Qed.

Lemma Demo_image_id_order : ImageIdOrder.
Proof.
  split; simpl; intros a b.
  - rewrite !Z.leb_le. lia.
  - intros c. rewrite !Z.leb_le. lia.
Qed.

#[local] Existing Instance Demo_dwithin_distance.
#[local] Existing Instance Demo_image_id_order.

Lemma Demo_nyali_stored : Demo.nyali ∈ listings (store Demo.connected).
Proof. simpl. repeat constructor. Qed.

Lemma Demo_nyali_no_image (li : listing_image) :
  li ∈ listing_images (store Demo.connected) ->
  li_listing_id li <> l_id Demo.nyali.
Proof.
  revert li. apply Forall_forall. simpl. repeat constructor; discriminate.
Qed.

Lemma Demo_amina_user :
  {| u_id := 10; u_name := Some "Amina"; u_phone := Some "0700";
     u_whatsapp := None |} ∈ users (store Demo.connected).
Proof. simpl. repeat constructor. Qed.

Lemma Demo_no_listing_99 (l : listing) :
  l ∈ listings (store Demo.connected) -> l_id l <> 99.
Proof.
  revert l. apply Forall_forall. simpl. repeat constructor; discriminate.
Qed.

(** The example of the specification: around Nairobi with a radius of
    2000 meters, the featured listing at 500 meters and then the
    other at 1800 meters, and nothing else. *)
Example nearby_nairobi :
  exists (r1 r2 : nearby_row) (p' : pool),
    get_listings_nearby Demo.connected Demo.nairobi =
      (res_json (NearbyRows [r1; r2]), p') /\
    (nr_id r1, nr_is_featured r1, nr_distance r1) = (1, Some true, 500%Q) /\
    (nr_id r2, nr_is_featured r2, nr_distance r2) = (2, Some false, 1800%Q).
Proof. eexists _, _, _. vm_compute. repeat split. Qed.

(** Without a radius the search is within 5000 meters: the same two
    listings, the one in Mombasa still left out. *)
Example nearby_nairobi_default :
  exists (r1 r2 : nearby_row) (p' : pool),
    get_listings_nearby Demo.connected Demo.nairobi_default =
      (res_json (NearbyRows [r1; r2]), p') /\
    (nr_id r1, nr_distance r1) = (1, 500%Q) /\
    (nr_id r2, nr_distance r2) = (2, 1800%Q) /\
    sent p' =
      [(SelectNearby,
        [JS.Str "36.8219"; JS.Str "-1.2921"; JS.Number 5000])].
Proof. eexists _, _, _. vm_compute. repeat split. Qed.

(** The images of listing 1 as the image route answers them: both
    stored records, the smaller [id] first, each with its own URL. *)
Example images_of_listing_1 :
  (get_listing_images Demo.connected "1").1 =
    res_json
      (ImageRows
         [{| io_id := 7; io_image_url := Some "a.jpg" |};
          {| io_id := 8; io_image_url := Some "b.jpg" |}]).
Proof. vm_compute. reflexivity. Qed.

(** C6, as stated, fails: on a store with integer identities the
    identifier [abc] is the identity of no stored listing, and its fetch
    is answered 500, not 404. *)
Lemma get_listing_unmatched_id_500 :
  ~ (forall id : string,
       (forall l, l ∈ listings (store Demo.connected) ->
          listing_id_in id <> Some (l_id l)) ->
       status (get_listing Demo.connected id).1 = 404).
Proof.
  intros Hclaim. specialize (Hclaim "abc").
  assert (status (get_listing Demo.connected "abc").1 = 500) as H500
    by (vm_compute; reflexivity).
  rewrite Hclaim in H500; [discriminate|].
  intros l _. discriminate.
Qed.

(** The earlier revision at the same input gives the coordinates back
    under their own names. *)
Example Part000_create_then_fetch :
  exists (created : listing) (p' : pool) (fetched : Part000.listing_row)
         (p'' : pool),
    post_admin_listings (Some "s3cret") Demo.connected (Some "s3cret")
      Demo.tudor = (res_status_json 201 (InsertedRow (Some created)), p') /\
    l_id created = 5 /\
    Part000.get_listing p' "5" =
      (Part000.res_json (Part000.ListingRow fetched), p'') /\
    Part000.lr_latitude fetched = 1%Q /\
    Part000.lr_longitude fetched = 2%Q.
Proof. eexists _, _, _, _. vm_compute. repeat split. Qed.

(** C3. On [server.js] the round trip of the claim fails: creating a
    listing with [latitude = 1.0] and [longitude = 2.0] and fetching
    it answers [latitude = 2.0] and [longitude = 1.0].  The statement
    of the fetch names [ST_X] latitude and [ST_Y] longitude, while the
    creation stores longitude as X and the proximity search and the
    earlier revision of the fetch read X as longitude. *)
Theorem create_then_fetch_swaps_coordinates :
  exists (created : listing) (p' : pool) (fetched : listing_row)
         (p'' : pool),
    post_admin_listings (Some "s3cret") Demo.connected (Some "s3cret")
      Demo.tudor = (res_status_json 201 (InsertedRow (Some created)), p') /\
    l_id created = 5 /\
    get_listing p' "5" = (res_json (ListingRow fetched), p'') /\
    lr_listing fetched = created /\
    lr_latitude fetched = 2%Q /\
    lr_longitude fetched = 1%Q.
Proof. eexists _, _, _, _. vm_compute. repeat split. Qed.

(** ** The claims at concrete requests *)

Lemma nearby_active_within_radius_witness :
  radius Demo.nairobi_default = JS.Undefined /\
  bind_float8 (lng Demo.nairobi_default) = Value 36.8219%Q /\
  bind_float8 (lat Demo.nairobi_default) = Value (-1.2921)%Q /\
  exists (rows : list nearby_row) (p' : pool),
    get_listings_nearby Demo.connected Demo.nairobi_default =
      (res_json (NearbyRows rows), p') /\
    (forall row, row ∈ rows ->
       exists l, l ∈ listings (store Demo.connected) /\
         row = nearby_select (store Demo.connected)
                 (make_geography 36.8219 (-1.2921)) l /\
         nr_id row = l_id l /\
         l_is_active l = Some true /\
         nr_distance row =
           ST_Distance (l_location l) (make_geography 36.8219 (-1.2921)) /\
         (nr_distance row <= 5000)%Q) /\
    (forall l, l ∈ listings (store Demo.connected) ->
       l_is_active l = Some true ->
       (ST_Distance (l_location l) (make_geography 36.8219 (-1.2921))
        <= 5000)%Q ->
       exists row, row ∈ rows /\
         row = nearby_select (store Demo.connected)
                 (make_geography 36.8219 (-1.2921)) l /\
         nr_id row = l_id l /\
         nr_distance row =
           ST_Distance (l_location l) (make_geography 36.8219 (-1.2921))).
Proof.
  split; [reflexivity|]. split; [reflexivity|]. split; [reflexivity|].
  apply (nearby_active_within_radius Demo.connected Demo.nairobi_default
           36.8219%Q (-1.2921)%Q 5000%Q); try reflexivity.
  left. split; reflexivity.
Defined.

Lemma nearby_featured_then_distance_witness :
  exists (resp : response) (p' : pool) (rows : list nearby_row)
         (r1 r2 : nearby_row),
    get_listings_nearby Demo.connected Demo.nairobi = (resp, p') /\
    body resp = NearbyRows rows /\
    rows !! 0%nat = Some r1 /\ rows !! 1%nat = Some r2 /\
    (nr_is_featured r1 = Some false -> nr_is_featured r2 <> Some true) /\
    (nr_is_featured r1 = nr_is_featured r2 ->
     (nr_distance r1 <= nr_distance r2)%Q).
Proof.
  eexists _, _, _, _, _.
  split; [vm_compute; reflexivity|].
  split; [reflexivity|].
  split; [reflexivity|].
  split; [reflexivity|].
  refine (nearby_featured_then_distance Demo.connected _ Demo.nairobi
            _ _ 0 1 _ _ _ _ _ _ _).
  - vm_compute. reflexivity.
  - reflexivity.
  - reflexivity.
  - reflexivity.
  - lia.
Defined.

Lemma admin_key_checked_first_witness :
  post_admin_listings (Some "s3cret") Demo.connected (Some "guess")
    Demo.tudor =
    (res_status_json 401 (Error "Unauthorized"), Demo.connected) /\
  post_admin_listings (Some "s3cret") Demo.connected None Demo.tudor =
    (res_status_json 401 (Error "Unauthorized"), Demo.connected).
Proof.
  split.
  - apply (admin_key_checked_first "s3cret" Demo.connected (Some "guess")
             Demo.tudor).
    right. discriminate.
  - apply (admin_key_checked_first "s3cret" Demo.connected None Demo.tudor).
    left. reflexivity.
Defined.

Lemma nearby_requires_lat_lng_witness :
  get_listings_nearby Demo.connected
    {| lat := JS.Undefined; lng := JS.Str "36.8219";
       radius := JS.Undefined |} =
    (res_status_json 400 (Error "lat and lng are required"), Demo.connected).
Proof.
  apply (nearby_requires_lat_lng Demo.connected
           {| lat := JS.Undefined; lng := JS.Str "36.8219";
              radius := JS.Undefined |}).
  left. reflexivity.
Defined.

Lemma get_listing_unknown_404_witness :
  listing_id_in "99" = Some 99 /\
  exists p' : pool,
    get_listing Demo.connected "99" =
      (res_status_json 404 (Error "Listing not found"), p') /\
    store p' = store Demo.connected.
Proof.
  split; [reflexivity|].
  apply (get_listing_unknown_404 Demo.connected "99" 99).
  - reflexivity.
  - reflexivity.
  - exact Demo_no_listing_99.
Defined.

Lemma get_listing_images_sorted_witness :
  listing_id_in "1" = Some 1 /\
  exists (rows : list image_object) (p' : pool),
    get_listing_images Demo.connected "1" = (res_json (ImageRows rows), p') /\
    rows ≡ₚ (fun li => {| io_id := li_id li;
                          io_image_url := li_image_url li |}) <$>
              filter (fun li => li_listing_id li = 1)
                (listing_images (store Demo.connected)) /\
    StronglySorted
      (fun r1 r2 => image_id_leb (io_id r1) (io_id r2) = true) rows /\
    ((forall li, li ∈ listing_images (store Demo.connected) ->
        li_listing_id li <> 1) ->
     rows = []).
Proof.
  split; [reflexivity|].
  apply (get_listing_images_sorted Demo.connected "1" 1); reflexivity.
Defined.

Lemma admin_missing_field_400_witness :
  post_admin_listings (Some "s3cret") Demo.connected (Some "s3cret")
    {| host_id := JS.Number 10; title := JS.Str "Tudor loft";
       description := JS.Undefined; price_kes := JS.Undefined;
       latitude := JS.Number 1; longitude := JS.Number 2;
       location_name := JS.Undefined |} =
    (res_status_json 400 (Error "Missing required fields"), Demo.connected).
Proof.
  apply (admin_missing_field_400 (Some "s3cret") Demo.connected
           {| host_id := JS.Number 10; title := JS.Str "Tudor loft";
              description := JS.Undefined; price_kes := JS.Undefined;
              latitude := JS.Number 1; longitude := JS.Number 2;
              location_name := JS.Undefined |}).
  right. right. left. reflexivity.
Defined.

Lemma admin_falsy_field_400_witness :
  post_admin_listings (Some "s3cret") Demo.connected (Some "s3cret")
    {| host_id := JS.Number 10; title := JS.Str "Equator raft";
       description := JS.Undefined; price_kes := JS.Number 900;
       latitude := JS.Number 0; longitude := JS.Number 36.8219;
       location_name := JS.Undefined |} =
    (res_status_json 400 (Error "Missing required fields"), Demo.connected).
Proof.
  apply (admin_falsy_field_400 (Some "s3cret") Demo.connected
           {| host_id := JS.Number 10; title := JS.Str "Equator raft";
              description := JS.Undefined; price_kes := JS.Number 900;
              latitude := JS.Number 0; longitude := JS.Number 36.8219;
              location_name := JS.Undefined |}).
  right. left. reflexivity.
Defined.

Lemma empty_images_array_or_null_witness :
  (exists (row : listing_row) (p' : pool),
     get_listing Demo.connected "2" = (res_json (ListingRow row), p') /\
     l_id (lr_listing row) = l_id Demo.nyali /\
     lr_images row = Some []) /\
  (exists (rows : list nearby_row) (p' : pool),
     get_listings_nearby Demo.connected Demo.nairobi =
       (res_json (NearbyRows rows), p') /\
     (exists row, row ∈ rows /\ nr_id row = l_id Demo.nyali) /\
     (forall row, row ∈ rows -> nr_id row = l_id Demo.nyali ->
        nr_images row = None)).
Proof.
  destruct (empty_images_array_or_null Demo.connected Demo.nyali
              Demo_nyali_stored Demo_nyali_no_image eq_refl)
    as [Hfetch Hnearby].
  split.
  - apply (Hfetch "2" _ eq_refl Demo_amina_user eq_refl).
  - apply (Hnearby Demo.nairobi 36.8219%Q (-1.2921)%Q 2000%Q); reflexivity.
Defined.

(** ** The further properties at concrete requests *)

Lemma Demo_ids_distinct : NoDup (l_id <$> listings (store Demo.connected)).
Proof. apply (bool_decide_unpack _). vm_compute. exact I. Qed.

Lemma Demo_no_user_99 (row : listing) :
  l_host_id row = 99 ->
  constraints_hold (store Demo.connected) row = false.
Proof.
  intros Hrow. simpl. unfold Demo.keys_hold. rewrite Hrow.
  apply andb_false_iff. right. reflexivity.
Qed.

Lemma Demo_kilifi_orphan (l : listing) (u : user) :
  l ∈ listings (store Demo.with_orphan) -> l_id l = 6 ->
  u ∈ users (store Demo.with_orphan) -> l_host_id l <> u_id u.
Proof.
  intros Hl Hid Hu. simpl in Hl, Hu.
  apply elem_of_cons in Hl as [->|Hl].
  - apply elem_of_cons in Hu as [->|Hu]; [discriminate|].
    apply list_elem_of_singleton in Hu as ->. discriminate.
  - apply list_elem_of_singleton in Hl as ->. discriminate Hid.
Qed.

Lemma unreachable_store_500_witness :
  (get_listings_nearby Demo.disconnected Demo.nairobi).1 =
    internal_server_error /\
  (get_listing Demo.disconnected "1").1 = internal_server_error /\
  (get_listing_images Demo.disconnected "1").1 = internal_server_error /\
  (post_admin_listings (Some "s3cret") Demo.disconnected (Some "s3cret")
     Demo.tudor).1 = internal_server_error.
Proof.
  destruct (unreachable_store_500 Demo.disconnected eq_refl)
    as (Hnearby & Hlisting & Himages & Hcreate).
  split; [apply Hnearby; reflexivity|].
  split; [apply Hlisting|].
  split; [apply Himages|].
  apply (Hcreate (Some "s3cret") Demo.tudor); reflexivity.
Defined.

Lemma nearby_unreadable_number_500_witness :
  bind_float8 (lat Demo.misspelt) = Invalid /\
  (get_listings_nearby Demo.connected Demo.misspelt).1 =
    internal_server_error.
Proof.
  split; [reflexivity|].
  apply (nearby_unreadable_number_500 Demo.connected Demo.misspelt);
    [reflexivity|reflexivity|].
  right. left. reflexivity.
Defined.

Lemma unreadable_id_500_witness :
  (get_listing Demo.connected "abc").1 = internal_server_error /\
  (get_listing_images Demo.connected "abc").1 = internal_server_error.
Proof. apply (unreadable_id_500 Demo.connected "abc"). reflexivity. Defined.

Lemma admin_creates_listing_witness :
  exists (row : listing) (p' : pool),
    post_admin_listings (Some "s3cret") Demo.connected (Some "s3cret")
      Demo.tudor = (res_status_json 201 (InsertedRow (Some row)), p') /\
    l_id row = 5 /\ l_host_id row = 10 /\ l_description row = None /\
    ST_X (to_geometry (l_location row)) = 2%Q /\
    ST_Y (to_geometry (l_location row)) = 1%Q /\
    l_is_active row = Some true /\
    listings (store p') = (listings (store Demo.connected) ++ [row])%list.
Proof.
  eexists _, _. split.
  - apply (@admin_creates_listing Demo.schema Demo.engine (Some "s3cret")
             Demo.connected Demo.tudor 10 "Tudor loft" 5200 2%Q 1%Q);
      reflexivity.
  - repeat split.
Defined.

Lemma admin_unreadable_field_500_witness :
  bind_float8 (latitude Demo.unplaced) = Invalid /\
  (post_admin_listings (Some "s3cret") Demo.connected (Some "s3cret")
     Demo.unplaced).1 = internal_server_error /\
  store (post_admin_listings (Some "s3cret") Demo.connected (Some "s3cret")
           Demo.unplaced).2 = store Demo.connected.
Proof.
  split; [reflexivity|].
  apply (admin_unreadable_field_500 (Some "s3cret") Demo.connected
           Demo.unplaced); try reflexivity.
  right. right. left. reflexivity.
Defined.

Lemma admin_constraint_violation_500_witness :
  (post_admin_listings (Some "s3cret") Demo.connected (Some "s3cret")
     Demo.unhosted).1 = internal_server_error /\
  store (post_admin_listings (Some "s3cret") Demo.connected (Some "s3cret")
           Demo.unhosted).2 = store Demo.connected.
Proof.
  apply (@admin_constraint_violation_500 Demo.schema Demo.engine
           (Some "s3cret") Demo.connected Demo.unhosted 99); try reflexivity.
  exact Demo_no_user_99.
Defined.

Lemma get_listing_without_host_404_witness :
  Demo.kilifi ∈ listings (store Demo.with_orphan) /\
  (get_listing Demo.with_orphan "6").1 =
    res_status_json 404 (Error "Listing not found").
Proof.
  split; [simpl; repeat constructor|].
  apply (@get_listing_without_host_404 Demo.schema Demo.engine
           Demo.with_orphan "6" 6);
    [reflexivity|reflexivity|exact Demo_kilifi_orphan].
Defined.

Lemma get_listing_row_sound_witness :
  exists (resp : response) (p' : pool) (row : listing_row),
    get_listing Demo.connected "2" = (resp, p') /\
    body resp = ListingRow row /\
    status resp = 200 /\
    lr_listing row ∈ listings (store Demo.connected) /\
    listing_id_in "2" = Some (l_id (lr_listing row)) /\
    exists u : user,
      u ∈ users (store Demo.connected) /\
      u_id u = l_host_id (lr_listing row) /\
      lr_host_name row = u_name u /\ lr_host_phone row = u_phone u /\
      lr_host_whatsapp row = u_whatsapp u.
Proof.
  eexists _, _, _.
  split; [vm_compute; reflexivity|].
  split; [reflexivity|].
  refine (get_listing_row_sound Demo.connected _ "2" _ _ _ _).
  - vm_compute. reflexivity.
  - reflexivity.
Defined.

Lemma get_listing_returns_stored_witness :
  exists (row : listing_row) (p' : pool),
    get_listing Demo.connected "2" = (res_json (ListingRow row), p') /\
    lr_listing row = Demo.nyali.
Proof.
  apply (get_listing_returns_stored Demo.connected "2" Demo.nyali Demo.amina).
  - reflexivity.
  - exact Demo_ids_distinct.
  - exact Demo_nyali_stored.
  - reflexivity.
  - exact Demo_amina_user.
  - reflexivity.
Defined.

Lemma get_listing_images_agree_witness :
  exists (resp : response) (p' : pool) (row : listing_row),
    get_listing Demo.connected "1" = (resp, p') /\
    body resp = ListingRow row /\
    exists (images rows : list image_object) (p'' : pool),
      lr_images row = Some images /\
      get_listing_images Demo.connected "1" =
        (res_json (ImageRows rows), p'') /\
      rows ≡ₚ images.
Proof.
  eexists _, _, _.
  split; [vm_compute; reflexivity|].
  split; [reflexivity|].
  refine (get_listing_images_agree Demo.connected _ "1" _ _ _ _).
  - vm_compute. reflexivity.
  - reflexivity.
Defined.

Lemma nearby_images_agree_witness :
  exists (resp : response) (p' : pool) (rows : list nearby_row)
         (row : nearby_row),
    get_listings_nearby Demo.connected Demo.nairobi = (resp, p') /\
    body resp = NearbyRows rows /\
    rows !! 0%nat = Some row /\
    listing_id_in "1" = Some (nr_id row) /\
    exists (images rows' : list image_object) (p'' : pool),
      nr_images row = json_agg images /\
      get_listing_images Demo.connected "1" =
        (res_json (ImageRows rows'), p'') /\
      rows' ≡ₚ images.
Proof.
  eexists _, _, _, _.
  split; [vm_compute; reflexivity|].
  split; [reflexivity|].
  split; [reflexivity|].
  split; [reflexivity|].
  refine (nearby_images_agree Demo.connected _ Demo.nairobi _ _ _ "1"
            _ _ _ _).
  - vm_compute. reflexivity.
  - reflexivity.
  - constructor.
  - reflexivity.
Defined.

Lemma nearby_ids_distinct_witness :
  exists (resp : response) (p' : pool) (rows : list nearby_row),
    get_listings_nearby Demo.connected Demo.nairobi = (resp, p') /\
    body resp = NearbyRows rows /\
    NoDup (nr_id <$> rows).
Proof.
  eexists _, _, _.
  split; [vm_compute; reflexivity|].
  split; [reflexivity|].
  refine (nearby_ids_distinct Demo.connected _ Demo.nairobi _ _ _ _ _).
  - exact Demo_ids_distinct.
  - vm_compute. reflexivity.
  - reflexivity.
Defined.

Lemma create_then_nearby_round_trip_witness :
  exists (resp : response) (p' : pool) (row : listing),
    post_admin_listings (Some "s3cret") Demo.connected (Some "s3cret")
      Demo.tudor = (resp, p') /\
    status resp = 201 /\ body resp = InsertedRow (Some row) /\
    exists (rows : list nearby_row) (p'' : pool) (found : nearby_row),
      get_listings_nearby p' Demo.around_tudor =
        (res_json (NearbyRows rows), p'') /\
      found ∈ rows /\ nr_id found = l_id row /\
      nr_latitude found = 1%Q /\ nr_longitude found = 2%Q.
Proof.
  eexists _, _, _.
  split; [vm_compute; reflexivity|].
  split; [reflexivity|].
  split; [reflexivity|].
  refine (create_then_nearby_round_trip (Some "s3cret") (Some "s3cret")
            Demo.connected _ Demo.tudor _ _ 1%Q 2%Q Demo.around_tudor
            2%Q 1%Q 5000%Q _ _ _ _ _ _ _ _ _ _ _ _ _);
    reflexivity.
Defined.

Lemma creation_keeps_other_fetches_witness :
  exists (resp : response) (p' : pool) (row : listing),
    post_admin_listings (Some "s3cret") Demo.connected (Some "s3cret")
      Demo.tudor = (resp, p') /\
    status resp = 201 /\ body resp = InsertedRow (Some row) /\
    (get_listing p' "2").1 = (get_listing Demo.connected "2").1.
Proof.
  eexists _, _, _.
  split; [vm_compute; reflexivity|].
  split; [reflexivity|].
  split; [reflexivity|].
  refine (@creation_keeps_other_fetches Demo.schema Demo.engine
            (Some "s3cret") (Some "s3cret")
            Demo.connected _ Demo.tudor _ _ "2" 2 _ _ _ _ _);
    try reflexivity.
  discriminate.
Defined.

Lemma earlier_revision_round_trip_witness :
  exists (resp : response) (p' : pool) (row : listing),
    post_admin_listings (Some "s3cret") Demo.connected (Some "s3cret")
      Demo.tudor = (resp, p') /\
    status resp = 201 /\ body resp = InsertedRow (Some row) /\
    exists (fetched : Part000.listing_row) (p'' : pool),
      Part000.get_listing p' "5" =
        (Part000.res_json (Part000.ListingRow fetched), p'') /\
      Part000.lr_listing fetched = row /\
      Part000.lr_latitude fetched = 1%Q /\
      Part000.lr_longitude fetched = 2%Q.
Proof.
  eexists _, _, _.
  split; [vm_compute; reflexivity|].
  split; [reflexivity|].
  split; [reflexivity|].
  refine (earlier_revision_round_trip (Some "s3cret") (Some "s3cret")
            Demo.connected _ Demo.tudor _ _ 1%Q 2%Q "5" _ _ _ _ _ _ _ _ _);
    try reflexivity.
  - apply Forall_forall. simpl. repeat constructor; discriminate.
  - exists Demo.amina.
    split; [exact Demo_amina_user|reflexivity].
Defined.

End OnDemo.
